(** * passbook.audit.models: audit entries and login-attempt counting

    A shallow embedding of [passbook/audit/models.py].  The two Django models
    of the file, [AuditEntry] and [LoginAttempt], are embedded as records; the
    database tables they live in are lists of rows in insertion order; the
    methods are written in a small state-and-exception monad over the table,
    so that what a call leaves in the table when it raises is part of its
    result.

    Collaborators that are not part of the file are kept at their interface:
    - the [json] module ([dumps], [loads]) is the class [Json];
    - [ipware.get_client_ip] reads the address it resolved off the request;
    - [timezone.now()] is the argument [now] of a call (microseconds);
    - the methods of the two classes run against tables that take every
      row; what the columns add is a layer of its own (section "The tables
      under their column constraints"): the NOT NULL address and the
      [unique_together] of [LoginAttempt], which turn a write into an
      [IntegrityError], and the written form an address field gives to
      IPv6 text, whose collaborator [clean_ipv6_address] is the class
      [Ipv6];
    - the widths and the integer range of the columns are not modelled.

    A Python string is the sequence of its characters; an integer is
    unbounded. *)

From Stdlib Require Import List String Ascii ZArith Bool Arith Lia.
From Stdlib Require Import DecimalString DecimalZ DecimalPos.
Import ListNotations.
Local Open Scope string_scope.
Set Warnings "-register-all".

(** ** Python run time: exceptions, results, the state-and-exception monad *)

Inductive exn : Type :=
| ValidationError (msg : string)
| TypeError
| ValueError
| AttributeError
| IntegrityError
| JSONDecodeError.

Inductive result (A : Type) : Type :=
| Ok (a : A)
| Raise (e : exn).
Arguments Ok {A} a.
Arguments Raise {A} e.

(** A computation over a state [S]: the state after the call is returned
    whether the call returns or raises. *)
Definition M (S A : Type) : Type := S -> result A * S.

Definition ret {S A : Type} (a : A) : M S A := fun s => (Ok a, s).

Definition raise {S A : Type} (e : exn) : M S A := fun s => (Raise e, s).

Definition bind {S A B : Type} (m : M S A) (k : A -> M S B) : M S B :=
  fun s =>
    match m s with
    | (Ok a, s') => k a s'
    | (Raise e, s') => (Raise e, s')
    end.

Definition gets {S A : Type} (f : S -> A) : M S A := fun s => (Ok (f s), s).

Definition modify {S : Type} (f : S -> S) : M S unit := fun s => (Ok tt, f s).

Definition lift {S A : Type} (r : result A) : M S A := fun s => (r, s).

Notation "x <- m ;; k" := (bind m (fun x => k))
  (at level 61, m at next level, right associativity).
Notation "m ;;; k" := (bind m (fun _ => k))
  (at level 61, right associativity).

(** ** Python values *)

(** [request.user]: the anonymous user or an authenticated user row. *)
Inductive User : Type :=
| AnonymousUser
| AuthUser (pk : nat).

(** The Python objects the module handles: what [json.loads] can return, and
    a user object, which a caller can pass in [**kwargs].  A float is its
    binary64 bit pattern. *)
Inductive pyval : Type :=
| PyNone
| PyBool (b : bool)
| PyInt (z : Z)
| PyFloat (bits : Z)
| PyStr (s : string)
| PyList (l : list pyval)
| PyDict (d : list (string * pyval))
| PyUser (u : User).

Definition dict : Type := list (string * pyval).

(** Python truth value, as [not x] tests it. *)
Definition truthy (v : pyval) : bool :=
  match v with
  | PyNone => false
  | PyBool b => b
  | PyInt z => negb (z =? 0)%Z
  | PyFloat bits => negb (Z.land bits (2 ^ 63 - 1) =? 0)%Z
  | PyStr s => negb (s =? "")
  | PyList l => match l with [] => false | _ :: _ => true end
  | PyDict d => match d with [] => false | _ :: _ => true end
  | PyUser _ => true
  end.

(** [d.get(key, default)] *)
Fixpoint dict_get (key : string) (default : pyval) (d : dict) : pyval :=
  match d with
  | [] => default
  | (k, v) :: d' => if k =? key then v else dict_get key default d'
  end.

(** [s[:n]] on a string. *)
Fixpoint slice_to (n : nat) (s : string) : string :=
  match n, s with
  | O, _ => ""
  | S _, EmptyString => ""
  | S n', String c s' => String c (slice_to n' s')
  end.

(** [a or b] where [a] is [None] or a string. *)
Definition str_or (a : option string) (b : string) : string :=
  match a with
  | None => b
  | Some s => if s =? "" then b else s
  end.

(** Equality of two nullable address values, as the query layer compares
    them ([None] is looked up as [IS NULL]). *)
Definition ip_eqb (a b : option string) : bool :=
  match a, b with
  | None, None => true
  | Some x, Some y => x =? y
  | _, _ => false
  end.

(** ** Collaborators *)

(** The request: the authenticated identity and what [ipware] resolves. *)
Module HttpRequest.
Record t : Type := make {
  user : User;
  resolved_ip : option string;
  routable : bool
}.
End HttpRequest.

(** [ipware.get_client_ip(request)]: the address, or [None], and a flag. *)
Definition get_client_ip (request : HttpRequest.t) : option string * bool :=
  (HttpRequest.resolved_ip request, HttpRequest.routable request).

Definition isinstance_AnonymousUser (u : User) : bool :=
  match u with AnonymousUser => true | AuthUser _ => false end.

(** The [json] module. *)
Class Json : Type := {
  dumps : dict -> result string;
  loads : string -> result pyval
}.

(** [timedelta(minutes=m)] in microseconds. *)
Definition timedelta_minutes (m : Z) : Z := (m * 60 * 1000000)%Z.

(** ** class AuditEntry(UUIDModel) *)

Module AuditEntry.

Definition ACTION_LOGIN : string := "login".
Definition ACTION_LOGIN_FAILED : string := "login_failed".
Definition ACTION_LOGOUT : string := "logout".
Definition ACTION_AUTHORIZE_APPLICATION : string := "authorize_application".
Definition ACTION_SUSPICIOUS_REQUEST : string := "suspicious_request".
Definition ACTION_SIGN_UP : string := "sign_up".
Definition ACTION_PASSWORD_RESET : string := "password_reset".
Definition ACTION_INVITE_CREATED : string := "invitation_created".
Definition ACTION_INVITE_USED : string := "invitation_used".

Definition ACTIONS : list (string * string) :=
  [ (ACTION_LOGIN, ACTION_LOGIN);
    (ACTION_LOGIN_FAILED, ACTION_LOGIN_FAILED);
    (ACTION_LOGOUT, ACTION_LOGOUT);
    (ACTION_AUTHORIZE_APPLICATION, ACTION_AUTHORIZE_APPLICATION);
    (ACTION_SUSPICIOUS_REQUEST, ACTION_SUSPICIOUS_REQUEST);
    (ACTION_SIGN_UP, ACTION_SIGN_UP);
    (ACTION_PASSWORD_RESET, ACTION_PASSWORD_RESET);
    (ACTION_INVITE_CREATED, ACTION_INVITE_CREATED);
    (ACTION_INVITE_USED, ACTION_INVITE_USED) ].

(** Membership of a value in the choices of the [action] field. *)
Definition is_action (a : string) : bool :=
  existsb (fun c => fst c =? a) ACTIONS.

(** The columns.  [user] is the key of the user row or NULL; [date] and
    [created] are [None] until the first save fills them ([auto_now_add]). *)
Record row : Type := mkRow {
  uuid : nat;
  user : option nat;
  action : string;
  date : option Z;
  app : string;
  _context : string;
  request_ip : string;
  created : option Z
}.

(** A Python instance: the columns, the class attribute [_context_cache]
    (initially [None]) and Django's [_state.adding]. *)
Record instance : Type := mkInstance {
  fields : row;
  _context_cache : pyval;
  adding : bool
}.

(** Modelled from the spec: [UUIDModel] (passbook.lib.models) is not among
    the sources; the data model gives an Event an [id] that is a unique
    identifier, assigned at creation and never reused.  The table hands out
    the identifiers in sequence. *)
Record table : Type := mkTable {
  rows : list row;
  next_uuid : nat
}.

Definition empty : table := mkTable [] 0.

Definition pk_exists (k : nat) (t : table) : bool :=
  existsb (fun r => (uuid r =? k)%nat) (rows t).

Definition set_stamps (now : Z) (r : row) : row :=
  mkRow (uuid r) (user r) (action r) (Some now) (app r) (_context r)
        (request_ip r) (Some now).

(** What assigning to the foreign key [user] accepts: [None] or a user row. *)
Definition fk_user (v : pyval) : result (option nat) :=
  match v with
  | PyNone => Ok None
  | PyUser (AuthUser pk) => Ok (Some pk)
  | _ => Raise ValueError
  end.

(** [AuditEntry(action=..., user=..., request_ip=..., _context=...)]: the
    constructor; [app] takes the empty default of a text field. *)
Definition init (action_ : string) (user_ : pyval) (request_ip_ _context_ : string)
  : M table instance :=
  u <- lift (fk_user user_) ;;
  k <- gets next_uuid ;;
  modify (fun t => mkTable (rows t) (S k)) ;;;
  ret (mkInstance (mkRow k u action_ None "" _context_ request_ip_ None)
                  PyNone true).

(** [models.Model.save] of an instance that is being added: an INSERT, with
    or without [force_insert], which the primary key refuses when the key is
    in the table already; the insert stamps the [auto_now_add] columns.
    Afterwards the instance is no longer [adding].  The row is the columns
    of the instance; the text the address field writes for it is
    [written]. *)
Definition Model_save (self : instance) (force_insert : bool) (now : Z)
  : M table instance :=
  fun t =>
    if pk_exists (uuid (fields self)) t then (Raise IntegrityError, t)
    else
      let r := set_stamps now (fields self) in
      (Ok (mkInstance r (_context_cache self) false),
       mkTable (rows t ++ [r]) (next_uuid t)).

(** [def save(self, *args, **kwargs)] *)
Definition save (self : instance) (force_insert : bool) (now : Z)
  : M table instance :=
  if negb (adding self) then
    raise (ValidationError "you may not edit an existing auditentry")
  else
    Model_save self force_insert now.

(** [AuditEntry.objects.create] with keyword arguments: construct, then
    [save(force_insert=True)]. *)
Definition objects_create (action_ : string) (user_ : pyval)
    (request_ip_ _context_ : string) (now : Z) : M table instance :=
  obj <- init action_ user_ request_ip_ _context_ ;;
  save obj true now.

(** [def create(action, request, **kwargs)] *)
Definition create `{Json} (action_ : string) (request : HttpRequest.t)
    (kwargs : dict) (now : Z) : M table instance :=
  let '(client_ip, _) := get_client_ip request in
  let user_ := PyUser (HttpRequest.user request) in
  let user_ :=
    if isinstance_AnonymousUser (HttpRequest.user request)
    then dict_get "user" PyNone kwargs
    else user_ in
  payload <- lift (dumps kwargs) ;;
  entry <- objects_create action_ user_
             (str_or client_ip "255.255.255.255") payload now ;;
  ret entry.

(** The object a [context] read works on, and the payloads handed to
    [json.loads] so far. *)
Record reader : Type := mkReader {
  self : instance;
  loads_calls : list string
}.

Definition json_loads `{Json} (payload : string) : M reader pyval :=
  fun st => (loads payload, mkReader (self st) (loads_calls st ++ [payload])).

Definition set_context_cache (v : pyval) : M reader unit :=
  modify (fun st =>
    mkReader (mkInstance (fields (self st)) v (adding (self st)))
             (loads_calls st)).

(** [@property def context(self)] *)
Definition context `{Json} : M reader pyval :=
  cache <- gets (fun st => _context_cache (self st)) ;;
  (if negb (truthy cache) then
     payload <- gets (fun st => _context (fields (self st))) ;;
     v <- json_loads payload ;;
     set_context_cache v
   else ret tt) ;;;
  gets (fun st => _context_cache (self st)).

(** The identifiers in the table were handed out by the table. *)
Definition wf (t : table) : Prop :=
  Forall (fun r => uuid r < next_uuid t) (rows t).

End AuditEntry.

(** ** class LoginAttempt(CreatedUpdatedModel) *)

Module LoginAttempt.

(** Modelled from the spec: [CreatedUpdatedModel] (passbook.lib.models) is
    not among the sources.  The data model gives an AttemptRecord an [id]
    and two timestamps: [created], set when the record is created, and
    [last_updated], refreshed on every save. *)
Record instance : Type := mkInstance {
  id : nat;
  target_uid : string;
  request_ip : option string;
  attempts : Z;
  created : Z;
  last_updated : Z
}.

Record table : Type := mkTable {
  rows : list instance;
  next_id : nat
}.

Definition empty : table := mkTable [] 0.

(** A query set is lazy: it is evaluated against the table each time it is
    asked for its rows. *)
Definition QuerySet : Type := table -> list instance.

(** [objects.filter(target_uid=..., request_ip=..., last_updated__gt=...)] *)
Definition objects_filter (target_uid_ : string) (request_ip_ : option string)
    (last_updated__gt : Z) : QuerySet :=
  fun t =>
    filter (fun a => (target_uid a =? target_uid_)
                     && ip_eqb (request_ip a) request_ip_
                     && (last_updated__gt <? last_updated a)%Z)
           (rows t).

Fixpoint insert_by_created (a : instance) (l : list instance) : list instance :=
  match l with
  | [] => [a]
  | b :: l' =>
      if (created a <=? created b)%Z then a :: b :: l'
      else b :: insert_by_created a l'
  end.

Fixpoint sort_by_created (l : list instance) : list instance :=
  match l with
  | [] => []
  | a :: l' => insert_by_created a (sort_by_created l')
  end.

(** [.order_by('created')]: ascending, rows with equal [created] in table
    order. *)
Definition order_by_created (q : QuerySet) : QuerySet :=
  fun t => sort_by_created (q t).

(** [.exists()] *)
Definition exists_ (q : QuerySet) : M table bool :=
  gets (fun t => match q t with [] => false | _ :: _ => true end).

(** [.first()] *)
Definition first (q : QuerySet) : M table (option instance) :=
  gets (fun t => hd_error (q t)).

Definition pk_exists (k : nat) (t : table) : bool :=
  existsb (fun r => (id r =? k)%nat) (rows t).

Definition touch (now : Z) (a : instance) : instance :=
  mkInstance (id a) (target_uid a) (request_ip a) (attempts a) (created a) now.

(** [attempt.save()]: the row with this key is rewritten from the instance,
    [last_updated] taking the current time; without such a row the instance
    is inserted. *)
Definition save (self : instance) (now : Z) : M table instance :=
  fun t =>
    let self' := touch now self in
    if pk_exists (id self) t then
      (Ok self',
       mkTable (map (fun r => if (id r =? id self)%nat then self' else r)
                    (rows t))
               (next_id t))
    else
      (Ok self', mkTable (rows t ++ [self']) (next_id t)).

(** [LoginAttempt.objects.create(target_uid=..., request_ip=...)]:
    [attempts] takes its default 1, both timestamps the current time.  The
    table takes the row as it is; what the columns refuse is
    [constraints_hold], applied to a call by [attempt_db]. *)
Definition objects_create (target_uid_ : string) (request_ip_ : option string)
    (now : Z) : M table instance :=
  fun t =>
    let a := mkInstance (next_id t) target_uid_ request_ip_ 1 now now in
    (Ok a, mkTable (rows t ++ [a]) (S (next_id t))).

(** [attempt.attempts += 1] *)
Definition incr_attempts (a : instance) : instance :=
  mkInstance (id a) (target_uid a) (request_ip a) (attempts a + 1)
             (created a) (last_updated a).

(** The query of [attempt]: the rows for the truncated key and the resolved
    address updated after the threshold, oldest first. *)
Definition existing_attempts (target_uid_ : string) (client_ip : option string)
    (now : Z) : QuerySet :=
  order_by_created
    (objects_filter (slice_to 254 target_uid_) client_ip
                    (now - timedelta_minutes 10)%Z).

(** The statements of [attempt]; the result is the value its local variable
    [attempt] holds after the last one. *)
Definition attempt_body (target_uid_ : string) (request : HttpRequest.t)
    (now : Z) : M table instance :=
  let '(client_ip, _) := get_client_ip request in
  let target_uid_ := slice_to 254 target_uid_ in
  let time_threshold := (now - timedelta_minutes 10)%Z in
  let existing_attempts :=
    order_by_created
      (objects_filter target_uid_ client_ip time_threshold) in
  found <- exists_ existing_attempts ;;
  if found then
    o <- first existing_attempts ;;
    match o with
    | None => raise AttributeError
    | Some a => save (incr_attempts a) now
    end
  else
    objects_create target_uid_ client_ip now.

(** [def attempt(target_uid, request)]: the function has no [return]
    statement, so a call evaluates to [None]. *)
Definition attempt (target_uid_ : string) (request : HttpRequest.t)
    (now : Z) : M table (option instance) :=
  attempt_body target_uid_ request now ;;;
  ret None.

(** [%s] of the address: the text, or [None] spelled out. *)
Definition str_of_ip (a : option string) : string :=
  match a with
  | None => "None"
  | Some s => s
  end.

(** [%d] of an integer: decimal digits, a minus sign before a negative one. *)
Definition str_of_int (z : Z) : string :=
  NilZero.string_of_int (Z.to_int z).

(** [def __str__(self)] *)
Definition __str__ (self : instance) : string :=
  "LoginAttempt to " ++ target_uid self ++ " from "
    ++ str_of_ip (request_ip self) ++ " (x" ++ str_of_int (attempts self) ++ ")".

(** The rows of a (target, address) pair, whatever their age. *)
Definition for_pair (target_uid_ : string) (request_ip_ : option string)
    (t : table) : list instance :=
  filter (fun a => (target_uid a =? target_uid_)
                   && ip_eqb (request_ip a) request_ip_)
         (rows t).

(** The keys in the table were handed out by the table, once each. *)
Definition wf (t : table) : Prop :=
  Forall (fun r => id r < next_id t) (rows t) /\ NoDup (map id (rows t)).

(** [unique_together = (('target_uid', 'request_ip', 'created'),)] *)
Definition unique_together (t : table) : Prop :=
  forall a b, In a (rows t) -> In b (rows t) ->
    target_uid a = target_uid b -> request_ip a = request_ip b ->
    created a = created b -> a = b.

End LoginAttempt.

(** ** Values used to run the definitions *)

(** The [json] module on the payload of a call without keyword arguments:
    [dumps({})] is the text of two braces and [loads] of it is the empty
    dict; nothing else is asked of it below. *)
Definition json_on_empty : Json :=
  {| dumps := fun d => match d with [] => Ok "{}" | _ :: _ => Raise TypeError end;
     loads := fun s => if s =? "{}" then Ok (PyDict []) else Raise JSONDecodeError |}.

Definition anonymous_from (ip : option string) : HttpRequest.t :=
  HttpRequest.make AnonymousUser ip true.

(** The request of the examples: anonymous, resolved to [10.0.0.1]. *)
Definition alice : HttpRequest.t := anonymous_from (Some "10.0.0.1").

Fixpoint repeat_char (c : ascii) (n : nat) : string :=
  match n with
  | O => ""
  | S n' => String c (repeat_char c n')
  end.

(** ** Predicates and tables of the statements *)

(** The actor [create] resolves: the identity of the request, or for an
    anonymous request the [user] keyword argument. *)
Definition resolved_user (request : HttpRequest.t) (kwargs : dict) : pyval :=
  if isinstance_AnonymousUser (HttpRequest.user request)
  then dict_get "user" PyNone kwargs
  else PyUser (HttpRequest.user request).

(** The test of the filter in [attempt] on one row. *)
Definition in_window (key : string) (ip : option string) (threshold : Z)
    (a : LoginAttempt.instance) : bool :=
  (LoginAttempt.target_uid a =? key)
  && ip_eqb (LoginAttempt.request_ip a) ip
  && (threshold <? LoginAttempt.last_updated a)%Z.

(** The test of [for_pair] on one row. *)
Definition of_pair (key : string) (ip : option string)
    (a : LoginAttempt.instance) : bool :=
  (LoginAttempt.target_uid a =? key) && ip_eqb (LoginAttempt.request_ip a) ip.

(** The instance [attempt] leaves behind when it counts up [a]. *)
Definition counted_up (now : Z) (a : LoginAttempt.instance) : LoginAttempt.instance :=
  LoginAttempt.touch now (LoginAttempt.incr_attempts a).

(** The table after [attempt] counted up the row [a]. *)
Definition rewritten (now : Z) (a : LoginAttempt.instance)
    (t : LoginAttempt.table) : LoginAttempt.table :=
  LoginAttempt.mkTable
    (map (fun r => if (LoginAttempt.id r =? LoginAttempt.id a)%nat
                   then counted_up now a else r)
         (LoginAttempt.rows t))
    (LoginAttempt.next_id t).

(** A table with two rows of one pair inside one window, the second created
    first, and a row of the same target under the sentinel address. *)
Definition overlapping : LoginAttempt.table :=
  LoginAttempt.mkTable
    [ LoginAttempt.mkInstance 0 "alice" (Some "10.0.0.1") 1 5 5;
      LoginAttempt.mkInstance 1 "alice" (Some "10.0.0.1") 4 3 7;
      LoginAttempt.mkInstance 2 "alice" (Some "255.255.255.255") 1 6 6 ]
    3.

(** A table whose only row for [alice] is filed under the sentinel. *)
Definition sentinel_only : LoginAttempt.table :=
  LoginAttempt.mkTable
    [ LoginAttempt.mkInstance 0 "alice" (Some "255.255.255.255") 1 5 5 ] 1.

(** The entry a call without keyword arguments stores. *)
Definition bare_entry : AuditEntry.instance :=
  AuditEntry.mkInstance
    (AuditEntry.mkRow 0 None "login" (Some 0%Z) "" "{}" "10.0.0.1" (Some 0%Z))
    PyNone false.

(** ** Runs and measures of the further properties *)

(** Calls of [attempt] for one key and one request, one after the other at
    the given times. *)
Fixpoint attempts_at (k : string) (request : HttpRequest.t) (times : list Z)
  : M LoginAttempt.table unit :=
  match times with
  | [] => ret tt
  | now :: rest =>
      LoginAttempt.attempt k request now ;;; attempts_at k request rest
  end.

(** Every time of the list is at or after the one before it and less than
    [w] after it, the first one counted from [prev]. *)
Fixpoint spaced (w prev : Z) (times : list Z) : Prop :=
  match times with
  | [] => True
  | x :: rest => (prev <= x < prev + w)%Z /\ spaced w x rest
  end.

(** The attempts counted by all rows of a table. *)
Definition total_attempts (t : LoginAttempt.table) : Z :=
  fold_right (fun a s => (LoginAttempt.attempts a + s)%Z) 0%Z (LoginAttempt.rows t).

(** Every row was created no later than it was last updated, and last
    updated no later than [now]. *)
Definition stamped_until (now : Z) (t : LoginAttempt.table) : Prop :=
  Forall (fun r => (LoginAttempt.created r <= LoginAttempt.last_updated r <= now)%Z)
         (LoginAttempt.rows t).

(** Every row counts at least 1 and holds a key of at most 254 characters. *)
Definition within_bounds (t : LoginAttempt.table) : Prop :=
  Forall (fun r => (1 <= LoginAttempt.attempts r)%Z /\
                   String.length (LoginAttempt.target_uid r) <= 254)
         (LoginAttempt.rows t).

(** The [json] module on the payloads of the further examples: the empty
    dict as before, the text of a list holding 1, a text that is not JSON,
    and a dict holding a user object, which [dumps] cannot serialise. *)
Definition json_small : Json :=
  {| dumps := fun d => match d with [] => Ok "{}" | _ :: _ => Raise TypeError end;
     loads := fun s =>
       if s =? "{}" then Ok (PyDict [])
       else if s =? "[1]" then Ok (PyList [PyInt 1])
       else Raise JSONDecodeError |}.

(** A persisted entry with the given stored payload. *)
Definition entry_with (payload : string) : AuditEntry.instance :=
  AuditEntry.mkInstance
    (AuditEntry.mkRow 0 None "login" (Some 0%Z) "" payload "10.0.0.1" (Some 0%Z))
    PyNone false.

(** ** The tables under their column constraints *)

(** [clean_ipv6_address] of [django.utils.ipv6]: the compressed form of an
    IPv6 text, or a [ValidationError] for a text that is no IPv6 address. *)
Class Ipv6 : Type := {
  clean_ipv6_address : string -> result string
}.

(** [":" in value] *)
Fixpoint has_colon (value : string) : bool :=
  match value with
  | EmptyString => false
  | String c rest => (c =? ":")%char || has_colon rest
  end.

(** How [GenericIPAddressField] writes an address ([get_prep_value]): a
    text with a colon in the form [clean_ipv6_address] gives it, when it
    gives one; any other text as it is. *)
Definition get_prep_value `{Ipv6} (value : string) : string :=
  if negb (value =? "") && has_colon value then
    match clean_ipv6_address value with
    | Ok cleaned => cleaned
    | Raise _ => value
    end
  else value.

(** The row of [AuditEntry] as the data base holds it: [request_ip] is a
    [GenericIPAddressField]. *)
Definition written `{Ipv6} (r : AuditEntry.row) : AuditEntry.row :=
  AuditEntry.mkRow (AuditEntry.uuid r) (AuditEntry.user r) (AuditEntry.action r)
    (AuditEntry.date r) (AuditEntry.app r) (AuditEntry._context r)
    (get_prep_value (AuditEntry.request_ip r)) (AuditEntry.created r).

(** The table of [AuditEntry] as the data base holds it. *)
Definition stored `{Ipv6} (t : AuditEntry.table) : list AuditEntry.row :=
  map written (AuditEntry.rows t).

(** [request_ip = models.GenericIPAddressField()] of [LoginAttempt]: the
    column is NOT NULL. *)
Definition not_null (r : LoginAttempt.instance) : bool :=
  match LoginAttempt.request_ip r with
  | Some _ => true
  | None => false
  end.

(** Two rows with the same target, address and [created]. *)
Definition same_triple (a b : LoginAttempt.instance) : bool :=
  (LoginAttempt.target_uid a =? LoginAttempt.target_uid b)
  && ip_eqb (LoginAttempt.request_ip a) (LoginAttempt.request_ip b)
  && (LoginAttempt.created a =? LoginAttempt.created b)%Z.

(** The unique index of [unique_together]: no two rows of the list have the
    same triple. *)
Fixpoint triples_unique (l : list LoginAttempt.instance) : bool :=
  match l with
  | [] => true
  | a :: l' => negb (existsb (same_triple a) l') && triples_unique l'
  end.

(** The constraints of the table of [LoginAttempt]. *)
Definition constraints_hold (t : LoginAttempt.table) : bool :=
  forallb not_null (LoginAttempt.rows t) && triples_unique (LoginAttempt.rows t).

(** [LoginAttempt.attempt] against the table under its constraints.  The
    call writes once, with its last statement (the [save] of the counted-up
    row or the [create]); a write that would leave a row without address
    or two rows with one triple raises [IntegrityError] instead, the
    exception leaves the call, and the table is as it was. *)
Definition attempt_db (target_uid_ : string) (request : HttpRequest.t)
    (now : Z) : M LoginAttempt.table (option LoginAttempt.instance) :=
  fun t =>
    let '(r, t') := LoginAttempt.attempt target_uid_ request now t in
    if constraints_hold t' then (r, t') else (Raise IntegrityError, t).

(** [clean_ipv6_address] on the addresses of the examples: the long form of
    [2001:db8::1] is compressed; nothing else is asked of it below. *)
Definition ipv6_on_examples : Ipv6 :=
  {| clean_ipv6_address := fun s =>
       if s =? "2001:db8:0:0:0:0:0:1" then Ok "2001:db8::1"
       else if s =? "2001:db8::1" then Ok "2001:db8::1"
       else Raise (ValidationError "This is not a valid IPv6 address.") |}.

(** A table whose one record carries a [created] later than its
    [last_updated], as a clock that was set back leaves it. *)
Definition stale_clash : LoginAttempt.table :=
  LoginAttempt.mkTable
    [ LoginAttempt.mkInstance 0 "alice" (Some "10.0.0.1") 2 700000000 0 ] 1.

(** * Properties of AuditEntry *)

Section AuditEntryFacts.

Import AuditEntry.

Lemma pk_exists_fresh (t : table) (n : nat) :
  Forall (fun r => uuid r < n) (rows t) -> pk_exists n t = false.
Proof.
  unfold pk_exists. intros Hwf.
  induction Hwf as [| r l Hr _ IH]; simpl.
  - reflexivity.
  - rewrite IH, orb_false_r. apply Nat.eqb_neq. lia.
Qed.

(** A persisted instance cannot be saved: the guard of [save] raises before
    the table is touched. *)
Lemma save_not_adding (e : instance) (force_insert : bool) (now : Z) (t : table) :
  adding e = false ->
  save e force_insert now t =
    (Raise (ValidationError "you may not edit an existing auditentry"), t).
Proof.
  intros Ha. unfold save. rewrite Ha. reflexivity.
Qed.

(** The manager's [create] on a well-formed table inserts one stamped row
    under the next identifier, whatever the text of [action]. *)
Lemma objects_create_ok (t : table) (a : string) (v : pyval) (u : option nat)
    (ip ctx : string) (now : Z) :
  wf t -> fk_user v = Ok u ->
  let r := mkRow (next_uuid t) u a (Some now) "" ctx ip (Some now) in
  objects_create a v ip ctx now t =
    (Ok (mkInstance r PyNone false), mkTable (rows t ++ [r]) (S (next_uuid t))).
Proof.
  intros Hwf Hu r.
  unfold objects_create, init, bind, lift, gets, modify, ret.
  rewrite Hu. cbn [adding fields uuid].
  unfold save. cbn [adding negb]. unfold Model_save.
  cbn [fields uuid _context_cache rows next_uuid].
  assert (Hfresh : pk_exists (next_uuid t) (mkTable (rows t) (S (next_uuid t))) = false)
    by (apply pk_exists_fresh; exact Hwf).
  rewrite Hfresh. reflexivity.
Qed.

Lemma objects_create_wf (t : table) (a : string) (v : pyval)
    (ip ctx : string) (now : Z) :
  wf t -> wf (snd (objects_create a v ip ctx now t)).
Proof.
  intros Hwf.
  destruct (fk_user v) as [u | e] eqn:Hu.
  - rewrite (objects_create_ok t a v u ip ctx now Hwf Hu). cbn [snd].
    unfold wf in *. cbn [rows next_uuid].
    apply Forall_app. split.
    + eapply Forall_impl; [| exact Hwf]. cbn. intros; lia.
    + constructor; [cbn; lia | constructor].
  - unfold objects_create, init, bind, lift. rewrite Hu. exact Hwf.
Qed.

Context {J : Json}.

(** [create] in closed form: when the keyword arguments serialise and the
    resolved actor is acceptable to the foreign key, one row is inserted. *)
Lemma create_ok (t : table) (a : string) (request : HttpRequest.t)
    (kwargs : dict) (now : Z) (payload : string) (u : option nat) :
  wf t -> dumps kwargs = Ok payload ->
  fk_user (resolved_user request kwargs) = Ok u ->
  let r := mkRow (next_uuid t) u a (Some now) "" payload
                 (str_or (HttpRequest.resolved_ip request) "255.255.255.255")
                 (Some now) in
  create a request kwargs now t =
    (Ok (mkInstance r PyNone false), mkTable (rows t ++ [r]) (S (next_uuid t))).
Proof.
  intros Hwf Hd Hu r.
  unfold create, get_client_ip. unfold bind at 1. unfold lift. rewrite Hd.
  unfold bind.
  fold (resolved_user request kwargs).
  rewrite (objects_create_ok t a _ u _ payload now Hwf Hu).
  reflexivity.
Qed.

(** When [create] raises, nothing was inserted. *)
Lemma create_raise_rows (t : table) (a : string) (request : HttpRequest.t)
    (kwargs : dict) (now : Z) (e : exn) (t' : table) :
  wf t -> create a request kwargs now t = (Raise e, t') -> rows t' = rows t.
Proof.
  intros Hwf.
  unfold create, get_client_ip. unfold bind at 1. unfold lift.
  destruct (dumps kwargs) as [payload | e0].
  - unfold bind. fold (resolved_user request kwargs).
    destruct (fk_user (resolved_user request kwargs)) as [u | e1] eqn:Hu.
    + rewrite (objects_create_ok t a _ u _ payload now Hwf Hu). discriminate.
    + unfold objects_create, init, bind, lift. rewrite Hu.
      intros H; inversion H; reflexivity.
  - intros H; inversion H; reflexivity.
Qed.

End AuditEntryFacts.

(** * Properties of LoginAttempt *)

Section LoginAttemptFacts.

Import LoginAttempt.

Lemma slice_to_length (n : nat) (s : string) :
  String.length (slice_to n s) = Nat.min n (String.length s).
Proof.
  revert s. induction n as [| n IH]; intros [| c s]; simpl; try reflexivity.
  now rewrite IH.
Qed.

Lemma ip_eqb_eq (a b : option string) : ip_eqb a b = true <-> a = b.
Proof.
  destruct a as [x |], b as [y |]; simpl; split; intros H;
    try discriminate; try reflexivity.
  - apply String.eqb_eq in H. now subst.
  - inversion H. apply String.eqb_refl.
Qed.

Lemma ip_eqb_refl (a : option string) : ip_eqb a a = true.
Proof. now apply ip_eqb_eq. Qed.

Lemma in_window_of_pair (key : string) (ip : option string) (thr : Z) (a : instance) :
  in_window key ip thr a = true -> of_pair key ip a = true.
Proof.
  unfold in_window, of_pair. intros H.
  apply andb_true_iff in H. tauto.
Qed.

Lemma filter_nil_weaken {A : Type} (f g : A -> bool) (l : list A) :
  (forall x, g x = true -> f x = true) ->
  filter f l = [] -> filter g l = [].
Proof.
  intros Hfg. induction l as [| x l IH]; simpl; [reflexivity |].
  destruct (f x) eqn:Hf; [discriminate |].
  intros Hl. destruct (g x) eqn:Hg.
  - apply Hfg in Hg. congruence.
  - now apply IH.
Qed.

(** *** Ordering by [created] *)

Lemma insert_by_created_In (a x : instance) (l : list instance) :
  In x (insert_by_created a l) <-> x = a \/ In x l.
Proof.
  induction l as [| b l IH]; simpl.
  - intuition.
  - destruct (created a <=? created b)%Z; simpl.
    + intuition.
    + rewrite IH. intuition.
Qed.

Lemma sort_by_created_In (x : instance) (l : list instance) :
  In x (sort_by_created l) <-> In x l.
Proof.
  induction l as [| a l IH]; simpl.
  - tauto.
  - rewrite insert_by_created_In, IH. intuition.
Qed.

Lemma insert_by_created_length (a : instance) (l : list instance) :
  List.length (insert_by_created a l) = S (List.length l).
Proof.
  induction l as [| b l IH]; simpl; [reflexivity |].
  destruct (created a <=? created b)%Z; simpl; [reflexivity | now rewrite IH].
Qed.

Lemma sort_by_created_length (l : list instance) :
  List.length (sort_by_created l) = List.length l.
Proof.
  induction l as [| a l IH]; simpl; [reflexivity |].
  now rewrite insert_by_created_length, IH.
Qed.

(** The first row of the ordered query is a row of the query and no row of
    the query was created before it. *)
Lemma sort_by_created_head (l : list instance) (a : instance) (q : list instance) :
  sort_by_created l = a :: q ->
  In a l /\ forall b, In b l -> (created a <= created b)%Z.
Proof.
  revert a q. induction l as [| x l IH]; intros a q; simpl; [discriminate |].
  destruct (sort_by_created l) as [| c q'] eqn:Hs.
  - assert (l = []) as ->.
    { apply length_zero_iff_nil. rewrite <- sort_by_created_length, Hs.
      reflexivity. }
    simpl. intros H; inversion H; subst. split; [now left |].
    intros b [-> | []]. lia.
  - destruct (IH c q' eq_refl) as [Hc Hmin].
    simpl. destruct (created x <=? created c)%Z eqn:Hle; intros H; inversion H; subst.
    + apply Z.leb_le in Hle. split; [now left |].
      intros b [-> | Hb]; [lia |]. specialize (Hmin b Hb). lia.
    + apply Z.leb_gt in Hle. split; [now right |].
      intros b [-> | Hb]; [lia | auto].
Qed.

(** *** The two paths of [attempt] *)

Lemma objects_filter_eq (key : string) (ip : option string) (thr : Z) (t : table) :
  objects_filter key ip thr t = filter (in_window key ip thr) (rows t).
Proof. reflexivity. Qed.

Lemma for_pair_eq (key : string) (ip : option string) (t : table) :
  for_pair key ip t = filter (of_pair key ip) (rows t).
Proof. reflexivity. Qed.

Lemma existing_attempts_In (k : string) (ip : option string) (now : Z)
    (t : table) (a : instance) :
  In a (existing_attempts k ip now t) <->
  In a (rows t) /\
  in_window (slice_to 254 k) ip (now - timedelta_minutes 10) a = true.
Proof.
  unfold existing_attempts, order_by_created, objects_filter.
  rewrite sort_by_created_In, filter_In. reflexivity.
Qed.

Lemma existing_attempts_nil (k : string) (ip : option string) (now : Z) (t : table) :
  existing_attempts k ip now t = [] <->
  filter (in_window (slice_to 254 k) ip (now - timedelta_minutes 10)) (rows t) = [].
Proof.
  unfold existing_attempts, order_by_created. rewrite objects_filter_eq.
  split; intros H.
  - apply length_zero_iff_nil. rewrite <- sort_by_created_length, H. reflexivity.
  - rewrite H. reflexivity.
Qed.

(** Without a match [attempt] creates. *)
Lemma attempt_body_create (k : string) (request : HttpRequest.t) (now : Z) (t : table) :
  existing_attempts k (HttpRequest.resolved_ip request) now t = [] ->
  attempt_body k request now t =
    objects_create (slice_to 254 k) (HttpRequest.resolved_ip request) now t.
Proof.
  intros H. unfold existing_attempts in H.
  unfold attempt_body, get_client_ip, bind, exists_, gets.
  cbv beta. rewrite H. reflexivity.
Qed.

(** With a match [attempt] counts up the first row of the ordered query. *)
Lemma attempt_body_increment (k : string) (request : HttpRequest.t) (now : Z)
    (t : table) (a : instance) (q : list instance) :
  existing_attempts k (HttpRequest.resolved_ip request) now t = a :: q ->
  attempt_body k request now t = save (incr_attempts a) now t.
Proof.
  intros H. unfold existing_attempts in H.
  unfold attempt_body, get_client_ip, bind, exists_, first, gets.
  cbv beta. rewrite !H. reflexivity.
Qed.

Lemma pk_exists_In (a : instance) (t : table) :
  In a (rows t) -> pk_exists (id a) t = true.
Proof.
  intros Ha. unfold pk_exists. apply existsb_exists.
  exists a. split; [exact Ha | apply Nat.eqb_refl].
Qed.

(** Saving a counted-up row of the table rewrites the rows with its key. *)
Lemma save_counted_up (a : instance) (now : Z) (t : table) :
  In a (rows t) ->
  save (incr_attempts a) now t =
    (Ok (counted_up now a),
     mkTable (map (fun r => if (id r =? id a)%nat then counted_up now a else r)
                  (rows t))
             (next_id t)).
Proof.
  intros Ha. unfold save. cbn [incr_attempts id].
  rewrite (pk_exists_In a t Ha). reflexivity.
Qed.

End LoginAttemptFacts.

Section AttemptPaths.

Import LoginAttempt.

Lemma attempt_of_body (k : string) (request : HttpRequest.t) (now : Z)
    (t t' : table) (a : instance) :
  attempt_body k request now t = (Ok a, t') ->
  attempt k request now t = (Ok None, t').
Proof.
  intros H. unfold attempt, bind. rewrite H. reflexivity.
Qed.

Lemma attempt_body_no_match (k : string) (request : HttpRequest.t) (now : Z) (t : table) :
  filter (in_window (slice_to 254 k) (HttpRequest.resolved_ip request)
            (now - timedelta_minutes 10)) (rows t) = [] ->
  attempt_body k request now t =
    (Ok (mkInstance (next_id t) (slice_to 254 k) (HttpRequest.resolved_ip request) 1 now now),
     mkTable (rows t ++ [mkInstance (next_id t) (slice_to 254 k)
                           (HttpRequest.resolved_ip request) 1 now now])
             (S (next_id t))).
Proof.
  intros H. apply existing_attempts_nil in H.
  rewrite (attempt_body_create k request now t H). reflexivity.
Qed.

Lemma attempt_body_match (k : string) (request : HttpRequest.t) (now : Z)
    (t : table) (a : instance) (q : list instance) :
  existing_attempts k (HttpRequest.resolved_ip request) now t = a :: q ->
  attempt_body k request now t = (Ok (counted_up now a), rewritten now a t).
Proof.
  intros H. rewrite (attempt_body_increment k request now t a q H).
  apply save_counted_up.
  assert (Hin : In a (existing_attempts k (HttpRequest.resolved_ip request) now t))
    by (rewrite H; now left).
  apply existing_attempts_In in Hin. tauto.
Qed.

Lemma map_other_keys (n : nat) (x : instance) (l : list instance) :
  Forall (fun r => id r <> n) l ->
  map (fun r => if (id r =? n)%nat then x else r) l = l.
Proof.
  intros H. induction H as [| r l Hr _ IH]; simpl; [reflexivity |].
  apply Nat.eqb_neq in Hr. now rewrite Hr, IH.
Qed.

(** When the only row in the window is the last row of the table and its key
    is its own, [attempt] counts it up in place. *)
Lemma attempt_body_last_row (k : string) (request : HttpRequest.t) (now : Z)
    (l : list instance) (r : instance) (n : nat) :
  filter (in_window (slice_to 254 k) (HttpRequest.resolved_ip request)
            (now - timedelta_minutes 10)) l = [] ->
  in_window (slice_to 254 k) (HttpRequest.resolved_ip request)
            (now - timedelta_minutes 10) r = true ->
  Forall (fun x => id x <> id r) l ->
  attempt_body k request now (mkTable (l ++ [r]) n) =
    (Ok (counted_up now r), mkTable (l ++ [counted_up now r]) n).
Proof.
  intros Hl Hr Hid.
  assert (Hq : existing_attempts k (HttpRequest.resolved_ip request) now
                 (mkTable (l ++ [r]) n) = [r]).
  { unfold existing_attempts, order_by_created.
    rewrite objects_filter_eq. cbn [rows].
    rewrite filter_app, Hl. cbn [filter app]. rewrite Hr. reflexivity. }
  rewrite (attempt_body_match k request now _ r [] Hq).
  unfold rewritten. cbn [rows next_id].
  rewrite map_app, (map_other_keys (id r) _ l Hid). simpl.
  rewrite Nat.eqb_refl. reflexivity.
Qed.

Lemma in_window_later (key : string) (ip : option string) (thr thr' : Z)
    (l : list instance) :
  (thr <= thr')%Z ->
  filter (in_window key ip thr) l = [] -> filter (in_window key ip thr') l = [].
Proof.
  intros Hle. apply filter_nil_weaken. intros x. unfold in_window.
  rewrite !andb_true_iff, !Z.ltb_lt. intuition lia.
Qed.

Lemma for_pair_nil_window (key : string) (ip : option string) (thr : Z) (t : table) :
  for_pair key ip t = [] -> filter (in_window key ip thr) (rows t) = [].
Proof.
  rewrite for_pair_eq. apply filter_nil_weaken. apply in_window_of_pair.
Qed.

Lemma for_pair_last (key : string) (ip : option string) (t : table)
    (l : list instance) (n : nat) :
  for_pair key ip t = [] ->
  Forall (fun r => of_pair key ip r = true) l ->
  for_pair key ip (mkTable (rows t ++ l) n) = l.
Proof.
  rewrite !for_pair_eq. cbn [rows]. intros H Hl. rewrite filter_app, H.
  cbn [app].
  induction Hl as [| r l Hr _ IH]; cbn [filter]; [reflexivity |].
  now rewrite Hr, IH.
Qed.

Lemma wf_fresh (t : table) : wf t -> Forall (fun x => id x <> next_id t) (rows t).
Proof.
  intros [H _]. eapply Forall_impl; [| exact H]. cbn. intros; lia.
Qed.

Lemma slice_to_prefix (n : nat) (s : string) :
  exists rest, s = (slice_to n s ++ rest)%string.
Proof.
  revert s. induction n as [| n IH]; intros s.
  - exists s. destruct s; reflexivity.
  - destruct s as [| c s]; [exists ""; reflexivity |].
    destruct (IH s) as [rest Hrest]. exists rest. simpl. now rewrite <- Hrest.
Qed.

Lemma NoDup_key_inj (l : list instance) (a b : instance) :
  NoDup (map id l) -> In a l -> In b l -> id a = id b -> a = b.
Proof.
  induction l as [| x l IH]; simpl; [tauto |].
  intros Hnd Ha Hb Hid. inversion Hnd as [| ? ? Hx Hnd']; subst.
  destruct Ha as [-> | Ha], Hb as [-> | Hb].
  - reflexivity.
  - exfalso. apply Hx. rewrite Hid. now apply in_map.
  - exfalso. apply Hx. rewrite <- Hid. now apply in_map.
  - now apply IH.
Qed.

(** Counting up [a] leaves every other position of a well-formed table as it
    was and puts the counted-up row where [a] stood. *)
Lemma rewritten_nth (now : Z) (a : instance) (t : table) (i : nat) (b : instance) :
  wf t -> In a (rows t) -> nth_error (rows t) i = Some b ->
  nth_error (rows (rewritten now a t)) i =
    Some (if (id b =? id a)%nat then counted_up now a else b) /\
  (b <> a -> (id b =? id a)%nat = false).
Proof.
  intros [_ Hnd] Ha Hb. split.
  - unfold rewritten. cbn [rows]. rewrite nth_error_map, Hb. reflexivity.
  - intros Hne. apply Nat.eqb_neq. intros Hid. apply Hne.
    apply (NoDup_key_inj (rows t)); auto.
    eapply nth_error_In; eauto.
Qed.

(** Well-formedness is an invariant of [attempt]. *)
Lemma attempt_wf (k : string) (request : HttpRequest.t) (now : Z) (t : table) :
  wf t -> wf (snd (attempt k request now t)).
Proof.
  intros Hwf.
  destruct (existing_attempts k (HttpRequest.resolved_ip request) now t)
    as [| a q] eqn:Hq.
  - apply existing_attempts_nil in Hq.
    rewrite (attempt_of_body _ _ _ _ _ _ (attempt_body_no_match k request now t Hq)).
    cbn [snd]. destruct Hwf as [Hlt Hnd]. split; cbn [rows next_id].
    + apply Forall_app. split.
      * eapply Forall_impl; [| exact Hlt]. cbn. intros; lia.
      * constructor; [cbn; lia | constructor].
    + rewrite map_app. apply NoDup_app; [exact Hnd | repeat constructor; auto |].
      cbn. intros n Hn [<- | []].
      apply in_map_iff in Hn. destruct Hn as (r & Hr & Hin).
      rewrite Forall_forall in Hlt. specialize (Hlt r Hin). lia.
  - rewrite (attempt_of_body _ _ _ _ _ _ (attempt_body_match k request now t a q Hq)).
    cbn [snd]. destruct Hwf as [Hlt Hnd].
    assert (Hids : map id (rows (rewritten now a t)) = map id (rows t)).
    { unfold rewritten. cbn [rows]. rewrite map_map. apply map_ext.
      intros r. destruct (id r =? id a)%nat eqn:E; [| reflexivity].
      apply Nat.eqb_eq in E. now rewrite E. }
    split.
    + apply Forall_forall. intros r Hr.
      assert (Hin : In (id r) (map id (rows t)))
        by (rewrite <- Hids; now apply in_map).
      apply in_map_iff in Hin. destruct Hin as (r0 & Hr0 & Hin0).
      rewrite Forall_forall in Hlt. specialize (Hlt r0 Hin0).
      unfold rewritten. cbn [next_id]. lia.
    + now rewrite Hids.
Qed.

End AttemptPaths.

(** * The claims about LoginAttempt.attempt *)

Section AttemptClaims.

Import LoginAttempt.

Lemma fresh_row_in_window (n : nat) (key : string) (ip : option string)
    (c : Z) (made upd now : Z) :
  (now - timedelta_minutes 10 < upd)%Z ->
  in_window key ip (now - timedelta_minutes 10) (mkInstance n key ip c made upd) = true.
Proof.
  intros H. unfold in_window. cbn [target_uid request_ip last_updated].
  rewrite String.eqb_refl, ip_eqb_refl. simpl. now apply Z.ltb_lt.
Qed.

(** C1: three calls of [attempt] for one target key and one resolved address
    at times [t1 <= t2 <= t3] less than ten minutes apart, on a well-formed
    table without a row for the pair, leave exactly one row for the pair; it
    counts 3.  The first call inserts the row, the second and the third
    rewrite that row with the count one higher and [last_updated] at the time
    of the call, and insert nothing. *)
Theorem three_attempts_one_record (k : string) (request : HttpRequest.t)
    (t1 t2 t3 : Z) (t : table) :
  wf t ->
  for_pair (slice_to 254 k) (HttpRequest.resolved_ip request) t = [] ->
  (t1 <= t2 <= t3)%Z ->
  (t3 - t1 < timedelta_minutes 10)%Z ->
  let key := slice_to 254 k in
  let ip := HttpRequest.resolved_ip request in
  let n := next_id t in
  let s1 := mkTable (rows t ++ [mkInstance n key ip 1 t1 t1]) (S n) in
  let s2 := mkTable (rows t ++ [mkInstance n key ip 2 t1 t2]) (S n) in
  let s3 := mkTable (rows t ++ [mkInstance n key ip 3 t1 t3]) (S n) in
  attempt k request t1 t = (Ok None, s1) /\
  attempt k request t2 s1 = (Ok None, s2) /\
  attempt k request t3 s2 = (Ok None, s3) /\
  for_pair key ip s3 = [mkInstance n key ip 3 t1 t3].
Proof.
  intros Hwf Hnone Hord Hwin key ip n s1 s2 s3.
  pose proof (wf_fresh t Hwf) as Hfresh.
  repeat split.
  - eapply attempt_of_body. apply attempt_body_no_match.
    now apply for_pair_nil_window.
  - eapply attempt_of_body.
    apply (attempt_body_last_row k request t2 (rows t) (mkInstance n key ip 1 t1 t1) (S n)).
    + now apply for_pair_nil_window.
    + apply fresh_row_in_window. lia.
    + exact Hfresh.
  - eapply attempt_of_body.
    apply (attempt_body_last_row k request t3 (rows t) (mkInstance n key ip 2 t1 t2) (S n)).
    + now apply for_pair_nil_window.
    + apply fresh_row_in_window. lia.
    + exact Hfresh.
  - apply for_pair_last; [exact Hnone |].
    constructor; [| constructor]. unfold of_pair. cbn [target_uid request_ip].
    now rewrite String.eqb_refl, ip_eqb_refl.
Qed.

(** C7: a call of [attempt] at [t1] and a second one at [t2], ten minutes or
    more later, on a table where no row of the pair is inside the window of
    the first call, insert two rows, each counting 1 and stamped
    [created = last_updated] with the time of its call; the rows that were
    there, and the first row at the second call, stay as they are. *)
Theorem attempts_in_two_windows (k : string) (request : HttpRequest.t)
    (t1 t2 : Z) (t : table) :
  filter (in_window (slice_to 254 k) (HttpRequest.resolved_ip request)
            (t1 - timedelta_minutes 10)) (rows t) = [] ->
  (t1 + timedelta_minutes 10 <= t2)%Z ->
  let key := slice_to 254 k in
  let ip := HttpRequest.resolved_ip request in
  let n := next_id t in
  let r1 := mkInstance n key ip 1 t1 t1 in
  let r2 := mkInstance (S n) key ip 1 t2 t2 in
  attempt k request t1 t = (Ok None, mkTable (rows t ++ [r1]) (S n)) /\
  attempt k request t2 (mkTable (rows t ++ [r1]) (S n)) =
    (Ok None, mkTable (rows t ++ [r1; r2]) (S (S n))) /\
  (for_pair key ip t = [] ->
   for_pair key ip (mkTable (rows t ++ [r1; r2]) (S (S n))) = [r1; r2]).
Proof.
  intros Hnone Hlate key ip n r1 r2.
  repeat split.
  - eapply attempt_of_body. now apply attempt_body_no_match.
  - eapply attempt_of_body.
    rewrite attempt_body_no_match; cbn [rows next_id].
    + now rewrite <- app_assoc.
    + rewrite filter_app.
      rewrite (in_window_later _ _ (t1 - timedelta_minutes 10) _ (rows t));
        [| unfold timedelta_minutes in *; lia | exact Hnone].
      cbn [filter app]. unfold in_window. cbn [target_uid request_ip last_updated].
      assert ((t2 - timedelta_minutes 10 <? last_updated r1)%Z = false) as ->
        by (apply Z.ltb_ge; cbn [last_updated r1]; lia).
      now rewrite andb_false_r.
  - intros Hp. apply for_pair_last; [exact Hp |].
    repeat constructor; unfold of_pair; cbn [target_uid request_ip];
      now rewrite String.eqb_refl, ip_eqb_refl.
Qed.

(** C5: a key longer than 254 characters is cut to its first 254 characters
    before the filter and before the insert: the row of the creating call
    holds the cut key, and a later call inside the window with any key that
    has the same first 254 characters counts that row up instead of
    inserting one. *)
Theorem long_keys_coalesce (k1 k2 : string) (request : HttpRequest.t)
    (t1 t2 : Z) (t : table) :
  wf t ->
  254 < String.length k1 ->
  slice_to 254 k1 = slice_to 254 k2 ->
  for_pair (slice_to 254 k1) (HttpRequest.resolved_ip request) t = [] ->
  (t1 <= t2)%Z ->
  (t2 - t1 < timedelta_minutes 10)%Z ->
  let key := slice_to 254 k1 in
  let ip := HttpRequest.resolved_ip request in
  let n := next_id t in
  let s1 := mkTable (rows t ++ [mkInstance n key ip 1 t1 t1]) (S n) in
  let s2 := mkTable (rows t ++ [mkInstance n key ip 2 t1 t2]) (S n) in
  String.length key = 254 /\
  (exists rest, k1 = (key ++ rest)%string) /\
  attempt k1 request t1 t = (Ok None, s1) /\
  attempt k2 request t2 s1 = (Ok None, s2) /\
  for_pair key ip s2 = [mkInstance n key ip 2 t1 t2].
Proof.
  intros Hwf Hlen Hsame Hnone Hord Hwin key ip n s1 s2.
  pose proof (wf_fresh t Hwf) as Hfresh.
  repeat split.
  - unfold key. rewrite slice_to_length. lia.
  - apply slice_to_prefix.
  - eapply attempt_of_body. apply attempt_body_no_match.
    now apply for_pair_nil_window.
  - eapply attempt_of_body.
    pose proof (attempt_body_last_row k2 request t2 (rows t)
                  (mkInstance n key ip 1 t1 t1) (S n)) as H.
    rewrite <- Hsame in H. apply H.
    + now apply for_pair_nil_window.
    + apply fresh_row_in_window. lia.
    + exact Hfresh.
  - apply for_pair_last; [exact Hnone |].
    constructor; [| constructor]. unfold of_pair. cbn [target_uid request_ip].
    now rewrite String.eqb_refl, ip_eqb_refl.
Qed.

End AttemptClaims.

Section AttemptFrame.

Import LoginAttempt.

Lemma in_window_fields (key : string) (ip : option string) (thr : Z) (a : instance) :
  in_window key ip thr a = true ->
  target_uid a = key /\ request_ip a = ip /\ (thr < last_updated a)%Z.
Proof.
  unfold in_window. rewrite !andb_true_iff, String.eqb_eq, ip_eqb_eq, Z.ltb_lt.
  tauto.
Qed.

Lemma rewritten_In (now : Z) (a : instance) (t : table) :
  In a (rows t) -> In (counted_up now a) (rows (rewritten now a t)).
Proof.
  intros Ha. unfold rewritten. cbn [rows]. apply in_map_iff.
  exists a. now rewrite Nat.eqb_refl.
Qed.

(** C9: when the query of [attempt] has more than one row, the call counts
    up one of them, a row no other row of the query was created before
    (under [unique_together] every other row of the query was created
    strictly later); the counted-up row keeps its key, target, address and
    [created], counts one more and is stamped with the time of the call;
    every other row of a well-formed table stays at its place unchanged. *)
Theorem attempt_counts_up_earliest (k : string) (request : HttpRequest.t)
    (now : Z) (t : table) :
  wf t ->
  1 < List.length (existing_attempts k (HttpRequest.resolved_ip request) now t) ->
  exists a t',
    attempt k request now t = (Ok None, t') /\
    In a (existing_attempts k (HttpRequest.resolved_ip request) now t) /\
    (forall b, In b (existing_attempts k (HttpRequest.resolved_ip request) now t) ->
       (created a <= created b)%Z) /\
    (unique_together t ->
     forall b, In b (existing_attempts k (HttpRequest.resolved_ip request) now t) ->
       b <> a -> (created a < created b)%Z) /\
    List.length (rows t') = List.length (rows t) /\
    (forall i, nth_error (rows t) i = Some a ->
       nth_error (rows t') i =
         Some (mkInstance (id a) (target_uid a) (request_ip a)
                          (attempts a + 1) (created a) now)) /\
    (forall i b, nth_error (rows t) i = Some b -> b <> a ->
       nth_error (rows t') i = Some b).
Proof.
  intros Hwf Hlen.
  destruct (existing_attempts k (HttpRequest.resolved_ip request) now t)
    as [| a q] eqn:Hq; [simpl in Hlen; lia |].
  clear Hlen.
  assert (Hmem : forall b, In b (a :: q) <->
            In b (rows t) /\
            in_window (slice_to 254 k) (HttpRequest.resolved_ip request)
              (now - timedelta_minutes 10) b = true).
  { intros b. rewrite <- Hq. apply existing_attempts_In. }
  assert (Ha : In a (rows t)) by (apply Hmem; now left).
  assert (Hmin : forall b, In b (a :: q) -> (created a <= created b)%Z).
  { unfold existing_attempts, order_by_created in Hq.
    destruct (sort_by_created_head _ _ _ Hq) as [_ Hmin].
    intros b Hb. apply Hmin. rewrite <- sort_by_created_In.
    unfold QuerySet in *. rewrite Hq. exact Hb. }
  exists a, (rewritten now a t). repeat split.
  - eapply attempt_of_body. eapply attempt_body_match. exact Hq.
  - now left.
  - exact Hmin.
  - intros Huniq b Hb Hne.
    specialize (Hmin b Hb).
    destruct (Z.eq_dec (created a) (created b)) as [Heq | Hneq]; [| lia].
    exfalso. apply Hne. symmetry.
    assert (Ha' : In a (a :: q)) by now left.
    apply Hmem in Hb. apply Hmem in Ha'.
    destruct Hb as [Hb Hwb], Ha' as [_ Hwa].
    apply in_window_fields in Hwb. apply in_window_fields in Hwa.
    apply Huniq; try assumption.
    + destruct Hwa as [-> _], Hwb as [-> _]. reflexivity.
    + destruct Hwa as [_ [-> _]], Hwb as [_ [-> _]]. reflexivity.
  - unfold rewritten. cbn [rows]. apply length_map.
  - intros i Hi.
    destruct (rewritten_nth now a t i a Hwf Ha Hi) as [Hn _].
    rewrite Hn, Nat.eqb_refl. reflexivity.
  - intros i b Hi Hne.
    destruct (rewritten_nth now a t i b Hwf Ha Hi) as [Hn Hk].
    rewrite Hn, (Hk Hne). reflexivity.
Qed.

(** Whatever the table, [attempt] against it returns [None], and the
    record it created or counted up, the value of its local variable, is a
    row of the table afterwards. *)
Lemma attempt_leaves_record (k : string) (request : HttpRequest.t)
    (now : Z) (t : table) :
  exists a t',
    attempt_body k request now t = (Ok a, t') /\
    In a (rows t') /\
    attempt k request now t = (Ok None, t').
Proof.
  destruct (existing_attempts k (HttpRequest.resolved_ip request) now t)
    as [| a0 q] eqn:Hq.
  - apply existing_attempts_nil in Hq.
    pose proof (attempt_body_no_match k request now t Hq) as Hb.
    eexists. eexists. split; [exact Hb |].
    split; [cbn [rows]; apply in_or_app; right; now left |].
    eapply attempt_of_body; exact Hb.
  - pose proof (attempt_body_match k request now t a0 q Hq) as Hb.
    exists (counted_up now a0), (rewritten now a0 t).
    split; [exact Hb |].
    split; [| eapply attempt_of_body; exact Hb].
    apply rewritten_In.
    assert (Hin : In a0 (existing_attempts k (HttpRequest.resolved_ip request) now t))
      by (rewrite Hq; now left).
    apply existing_attempts_In in Hin. tauto.
Qed.

(** C6 as the claim states it fails: the creating call for [alice] from
    [10.0.0.1] on the empty table evaluates to [None], no record. *)
Lemma attempt_result_is_not_a_record :
  attempt "alice" (anonymous_from (Some "10.0.0.1")) 0 empty =
    (Ok None, mkTable [mkInstance 0 "alice" (Some "10.0.0.1") 1 0 0] 1) /\
  ~ (exists a,
       fst (attempt "alice" (anonymous_from (Some "10.0.0.1")) 0 empty) = Ok (Some a)).
Proof.
  split; [reflexivity |].
  intros [a Ha]. discriminate Ha.
Qed.

End AttemptFrame.

(** * The claims about AuditEntry *)

Section AuditEntryClaims.

Import AuditEntry.

(** C2: on a well-formed table the creating write succeeds: it adds one row
    under the key of the entry it returns, and the entry is no longer being
    added.  A save of an entry that is no longer being added, whatever was
    changed on it in memory and whatever the arguments, raises
    [ValidationError] and leaves the table as it was. *)
Theorem persisted_entry_cannot_be_saved (t : table) (a : string) (v : pyval)
    (u : option nat) (ip ctx : string) (now : Z) :
  wf t ->
  fk_user v = Ok u ->
  exists e t',
    objects_create a v ip ctx now t = (Ok e, t') /\
    adding e = false /\
    (exists r, rows t' = (rows t ++ [r])%list /\ uuid r = uuid (fields e)) /\
    forall (e2 : instance) (t2 : table) (force_insert : bool) (now2 : Z),
      adding e2 = false ->
      save e2 force_insert now2 t2 =
        (Raise (ValidationError "you may not edit an existing auditentry"), t2).
Proof.
  intros Hwf Hu.
  eexists. eexists. split; [apply (objects_create_ok t a v u ip ctx now Hwf Hu) |].
  split; [reflexivity |]. split.
  - eexists. split; reflexivity.
  - intros e2 t2 force_insert now2 Hadd. now apply save_not_adding.
Qed.

Context {J : Json}.

(** C3, as the code has it: [create] does not look at [ACTIONS].  For every
    text of [action], in the enumeration or not, when the keyword arguments
    serialise and the resolved actor is acceptable to the foreign key, the
    call returns and inserts exactly one row, whose [action] is the text
    given. *)
Theorem create_stores_any_action (t : table) (a : string)
    (request : HttpRequest.t) (kwargs : dict) (now : Z)
    (payload : string) (u : option nat) :
  wf t ->
  dumps kwargs = Ok payload ->
  fk_user (resolved_user request kwargs) = Ok u ->
  exists e t',
    create a request kwargs now t = (Ok e, t') /\
    action (fields e) = a /\
    rows t' = (rows t ++ [fields e])%list.
Proof.
  intros Hwf Hd Hu.
  eexists. eexists.
  split; [apply (create_ok t a request kwargs now payload u Hwf Hd Hu) |].
  split; reflexivity.
Qed.

(** *** The cached [context] *)

(** A read with a false cache calls [loads] on the stored payload and caches
    what it gives. *)
Lemma context_miss (e : instance) (log : list string) (v : pyval) :
  truthy (_context_cache e) = false ->
  loads (_context (fields e)) = Ok v ->
  context (mkReader e log) =
    (Ok v, mkReader (mkInstance (fields e) v (adding e))
                    (log ++ [_context (fields e)])).
Proof.
  intros Hc Hl.
  unfold context, bind, gets, json_loads, set_context_cache, modify, ret.
  cbn. rewrite Hc. cbn. rewrite Hl. reflexivity.
Qed.

(** A read with a true cache returns it and calls nothing. *)
Lemma context_hit (e : instance) (log : list string) :
  truthy (_context_cache e) = true ->
  context (mkReader e log) = (Ok (_context_cache e), mkReader e log).
Proof.
  intros Hc. unfold context, bind, gets, ret. cbn. rewrite Hc.
  reflexivity.
Qed.

(** A payload [loads] rejects surfaces as the exception of [loads]. *)
Lemma context_malformed (e : instance) (log : list string) (x : exn) :
  truthy (_context_cache e) = false ->
  loads (_context (fields e)) = Raise x ->
  context (mkReader e log) =
    (Raise x, mkReader e (log ++ [_context (fields e)])).
Proof.
  intros Hc Hl. destruct e as [f c ad].
  unfold context, bind, gets, json_loads.
  cbn in *. rewrite Hc. cbn. rewrite Hl. reflexivity.
Qed.

(** Two reads of a payload that deserialises to a true value: one call of
    [loads], the second read is served from the cache. *)
Lemma context_twice_cached (e : instance) (log : list string) (v : pyval) :
  truthy (_context_cache e) = false ->
  loads (_context (fields e)) = Ok v ->
  truthy v = true ->
  (context ;;; context) (mkReader e log) =
    (Ok v, mkReader (mkInstance (fields e) v (adding e))
                    (log ++ [_context (fields e)])).
Proof.
  intros Hc Hl Hv. unfold bind at 1.
  rewrite (context_miss e log v Hc Hl).
  now rewrite context_hit.
Qed.

(** C4 at the payloads the code misses: when the stored payload
    deserialises to a value that is false in Python (the empty dict of a
    call without keyword arguments, an empty list, 0, null), the test
    [not self._context_cache] is true again at the second read, which calls
    [loads] on the stored payload a second time.  Both reads return the same
    value. *)
Theorem context_rereads_falsy_payload (e : instance) (log : list string) (v : pyval) :
  truthy (_context_cache e) = false ->
  loads (_context (fields e)) = Ok v ->
  truthy v = false ->
  context (mkReader e log) =
    (Ok v, mkReader (mkInstance (fields e) v (adding e))
                    (log ++ [_context (fields e)])) /\
  (context ;;; context) (mkReader e log) =
    (Ok v, mkReader (mkInstance (fields e) v (adding e))
                    (log ++ [_context (fields e); _context (fields e)])).
Proof.
  intros Hc Hl Hv. split; [now apply context_miss |].
  unfold bind at 1.
  rewrite (context_miss e log v Hc Hl).
  rewrite (context_miss _ _ v); cbn [fields _context_cache adding]; auto.
  now rewrite <- app_assoc.
Qed.

End AuditEntryClaims.

(** * The theorems at concrete inputs *)

Lemma wf_empty : LoginAttempt.wf LoginAttempt.empty.
Proof. split; constructor. Qed.

(** C3 as the claim states it fails: [bogus] is not in [ACTIONS], and
    [create] with it returns an entry and inserts its row. *)
Lemma create_accepts_unlisted_action :
  AuditEntry.is_action "bogus" = false /\
  @AuditEntry.create json_on_empty "bogus" (anonymous_from (Some "10.0.0.1")) [] 0
     AuditEntry.empty =
    (Ok (AuditEntry.mkInstance
           (AuditEntry.mkRow 0 None "bogus" (Some 0%Z) "" "{}" "10.0.0.1" (Some 0%Z))
           PyNone false),
     AuditEntry.mkTable
       [AuditEntry.mkRow 0 None "bogus" (Some 0%Z) "" "{}" "10.0.0.1" (Some 0%Z)] 1) /\
  ~ (exists msg,
       @AuditEntry.create json_on_empty "bogus" (anonymous_from (Some "10.0.0.1")) [] 0
          AuditEntry.empty =
         (Raise (ValidationError msg), AuditEntry.empty)).
Proof.
  split; [reflexivity |]. split; [reflexivity |].
  intros [msg H]. discriminate H.
Qed.

Lemma three_attempts_one_record_witness :
  let s1 := LoginAttempt.mkTable
              [LoginAttempt.mkInstance 0 "alice" (Some "10.0.0.1") 1 0 0] 1 in
  let s2 := LoginAttempt.mkTable
              [LoginAttempt.mkInstance 0 "alice" (Some "10.0.0.1") 2 0 1000000] 1 in
  let s3 := LoginAttempt.mkTable
              [LoginAttempt.mkInstance 0 "alice" (Some "10.0.0.1") 3 0 599999999] 1 in
  LoginAttempt.attempt "alice" alice 0 LoginAttempt.empty = (Ok None, s1) /\
  LoginAttempt.attempt "alice" alice 1000000 s1 = (Ok None, s2) /\
  LoginAttempt.attempt "alice" alice 599999999 s2 = (Ok None, s3) /\
  LoginAttempt.for_pair "alice" (Some "10.0.0.1") s3 =
    [LoginAttempt.mkInstance 0 "alice" (Some "10.0.0.1") 3 0 599999999].
Proof.
  apply (three_attempts_one_record "alice" alice 0 1000000 599999999
           LoginAttempt.empty).
  - exact wf_empty.
  - reflexivity.
  - lia.
  - reflexivity.
Defined.

Lemma attempts_in_two_windows_witness :
  let r1 := LoginAttempt.mkInstance 0 "alice" (Some "10.0.0.1") 1 0 0 in
  let r2 := LoginAttempt.mkInstance 1 "alice" (Some "10.0.0.1") 1
              600000000 600000000 in
  LoginAttempt.attempt "alice" alice 0 LoginAttempt.empty =
    (Ok None, LoginAttempt.mkTable [r1] 1) /\
  LoginAttempt.attempt "alice" alice 600000000 (LoginAttempt.mkTable [r1] 1) =
    (Ok None, LoginAttempt.mkTable [r1; r2] 2) /\
  (LoginAttempt.for_pair "alice" (Some "10.0.0.1") LoginAttempt.empty = [] ->
   LoginAttempt.for_pair "alice" (Some "10.0.0.1")
     (LoginAttempt.mkTable [r1; r2] 2) = [r1; r2]).
Proof.
  apply (attempts_in_two_windows "alice" alice 0 600000000 LoginAttempt.empty).
  - reflexivity.
  - unfold timedelta_minutes. lia.
Defined.

Lemma long_keys_coalesce_witness :
  let k1 := repeat_char "a" 300 in
  let k2 := (repeat_char "a" 254 ++ repeat_char "b" 46)%string in
  let key := repeat_char "a" 254 in
  let s1 := LoginAttempt.mkTable
              [LoginAttempt.mkInstance 0 key (Some "10.0.0.1") 1 0 0] 1 in
  let s2 := LoginAttempt.mkTable
              [LoginAttempt.mkInstance 0 key (Some "10.0.0.1") 2 0 5] 1 in
  k1 <> k2 /\
  String.length key = 254 /\
  (exists rest, k1 = (key ++ rest)%string) /\
  LoginAttempt.attempt k1 alice 0 LoginAttempt.empty = (Ok None, s1) /\
  LoginAttempt.attempt k2 alice 5 s1 = (Ok None, s2) /\
  LoginAttempt.for_pair key (Some "10.0.0.1") s2 =
    [LoginAttempt.mkInstance 0 key (Some "10.0.0.1") 2 0 5].
Proof.
  intros k1 k2 key s1 s2. split.
  - intros H. apply String.eqb_eq in H. vm_compute in H. discriminate H.
  - apply (long_keys_coalesce k1 k2 alice 0 5 LoginAttempt.empty).
    + exact wf_empty.
    + apply Nat.ltb_lt. vm_compute. reflexivity.
    + vm_compute. reflexivity.
    + reflexivity.
    + lia.
    + reflexivity.
Defined.

Lemma wf_overlapping : LoginAttempt.wf overlapping.
Proof.
  split.
  - repeat constructor.
  - repeat constructor; simpl; intuition lia.
Qed.

Lemma attempt_counts_up_earliest_witness :
  LoginAttempt.wf overlapping /\
  1 < List.length (LoginAttempt.existing_attempts "alice" (Some "10.0.0.1") 10 overlapping) /\
  exists a t',
    LoginAttempt.attempt "alice" alice 10 overlapping = (Ok None, t') /\
    In a (LoginAttempt.existing_attempts "alice" (Some "10.0.0.1") 10 overlapping) /\
    (forall b,
       In b (LoginAttempt.existing_attempts "alice" (Some "10.0.0.1") 10 overlapping) ->
       (LoginAttempt.created a <= LoginAttempt.created b)%Z) /\
    (LoginAttempt.unique_together overlapping ->
     forall b,
       In b (LoginAttempt.existing_attempts "alice" (Some "10.0.0.1") 10 overlapping) ->
       b <> a -> (LoginAttempt.created a < LoginAttempt.created b)%Z) /\
    List.length (LoginAttempt.rows t') = List.length (LoginAttempt.rows overlapping) /\
    (forall i, nth_error (LoginAttempt.rows overlapping) i = Some a ->
       nth_error (LoginAttempt.rows t') i =
         Some (LoginAttempt.mkInstance (LoginAttempt.id a) (LoginAttempt.target_uid a)
                 (LoginAttempt.request_ip a) (LoginAttempt.attempts a + 1)
                 (LoginAttempt.created a) 10)) /\
    (forall i b, nth_error (LoginAttempt.rows overlapping) i = Some b -> b <> a ->
       nth_error (LoginAttempt.rows t') i = Some b).
Proof.
  split; [exact wf_overlapping |].
  split; [vm_compute; lia |].
  apply (attempt_counts_up_earliest "alice" alice 10 overlapping).
  - exact wf_overlapping.
  - vm_compute. lia.
Defined.

(** The run of the claim on [overlapping]: the row created at 3 is counted
    up from 4 to 5 and stamped 10; the row created at 5 and the row under
    the sentinel address are as before. *)
Example attempt_on_overlapping :
  LoginAttempt.attempt "alice" alice 10 overlapping =
    (Ok None,
     LoginAttempt.mkTable
       [ LoginAttempt.mkInstance 0 "alice" (Some "10.0.0.1") 1 5 5;
         LoginAttempt.mkInstance 1 "alice" (Some "10.0.0.1") 5 3 10;
         LoginAttempt.mkInstance 2 "alice" (Some "255.255.255.255") 1 6 6 ]
       3).
Proof. reflexivity. Qed.

Lemma wf_sentinel_only : LoginAttempt.wf sentinel_only.
Proof.
  split; repeat constructor. simpl. tauto.
Qed.

Lemma create_stores_any_action_witness :
  AuditEntry.is_action "bogus" = false /\
  exists e t',
    @AuditEntry.create json_on_empty "bogus" alice [] 0 AuditEntry.empty = (Ok e, t') /\
    AuditEntry.action (AuditEntry.fields e) = "bogus" /\
    AuditEntry.rows t' = (AuditEntry.rows AuditEntry.empty ++ [AuditEntry.fields e])%list.
Proof.
  split; [reflexivity |].
  apply (@create_stores_any_action json_on_empty AuditEntry.empty "bogus" alice []
           0 "{}" None).
  - constructor.
  - reflexivity.
  - reflexivity.
Defined.

Example bare_entry_created :
  fst (@AuditEntry.create json_on_empty "login" alice [] 0 AuditEntry.empty) =
    Ok bare_entry.
Proof. reflexivity. Qed.

Lemma context_rereads_falsy_payload_witness :
  (@AuditEntry.context json_on_empty ;;; @AuditEntry.context json_on_empty)
    (AuditEntry.mkReader bare_entry []) =
    (Ok (PyDict []),
     AuditEntry.mkReader
       (AuditEntry.mkInstance (AuditEntry.fields bare_entry) (PyDict []) false)
       ["{}"; "{}"]).
Proof.
  apply (@context_rereads_falsy_payload json_on_empty bare_entry [] (PyDict [])
           eq_refl eq_refl eq_refl).
Defined.

(** * Further properties of AuditEntry *)

Section MoreAuditEntry.

Import AuditEntry.

Context {J : Json}.

(** X1: the actor of the entry.  The identity of an authenticated request is
    stored whatever the keyword arguments say, a [user] keyword included; an
    anonymous request without a [user] keyword (or with [user=None]) stores
    NULL. *)
Theorem create_actor (t : table) (a : string) (request : HttpRequest.t)
    (kwargs : dict) (now : Z) (payload : string) :
  wf t ->
  dumps kwargs = Ok payload ->
  (forall pk, HttpRequest.user request = AuthUser pk ->
     exists e t', create a request kwargs now t = (Ok e, t') /\
                  user (fields e) = Some pk) /\
  (HttpRequest.user request = AnonymousUser ->
   dict_get "user" PyNone kwargs = PyNone ->
     exists e t', create a request kwargs now t = (Ok e, t') /\
                  user (fields e) = None).
Proof.
  intros Hwf Hd. split.
  - intros pk Hu. eexists. eexists.
    split; [apply (create_ok t a request kwargs now payload (Some pk) Hwf Hd) |].
    + unfold resolved_user. rewrite Hu. reflexivity.
    + reflexivity.
  - intros Hu Hk. eexists. eexists.
    split; [apply (create_ok t a request kwargs now payload None Hwf Hd) |].
    + unfold resolved_user. rewrite Hu. cbn. rewrite Hk. reflexivity.
    + reflexivity.
Qed.

(** X2: the log is append-only under [create].  Whatever the arguments, the
    rows that were in a well-formed table are still there, in place and
    unchanged: a call that returns has added exactly the row of the entry it
    returns, a call that raises has added nothing. *)
Theorem create_append_only (t : table) (a : string) (request : HttpRequest.t)
    (kwargs : dict) (now : Z) :
  wf t ->
  match create a request kwargs now t with
  | (Ok e, t') => rows t' = (rows t ++ [fields e])%list
  | (Raise _, t') => rows t' = rows t
  end.
Proof.
  intros Hwf.
  destruct (create a request kwargs now t) as [[e | x] t'] eqn:Hc.
  - destruct (dumps kwargs) as [payload | x] eqn:Hd.
    + destruct (fk_user (resolved_user request kwargs)) as [u | x] eqn:Hu.
      * rewrite (create_ok t a request kwargs now payload u Hwf Hd Hu) in Hc.
        inversion Hc; subst. reflexivity.
      * exfalso. revert Hc. unfold create, get_client_ip. unfold bind at 1.
        unfold lift. rewrite Hd. unfold bind.
        fold (resolved_user request kwargs).
        unfold objects_create, init, bind, lift. rewrite Hu. discriminate.
    + exfalso. revert Hc. unfold create, get_client_ip. unfold bind at 1.
      unfold lift. rewrite Hd. discriminate.
  - eapply create_raise_rows; eauto.
Qed.

(** X3: the fallback of [create] tests the truth value of the resolved
    address, so an empty address text is replaced by the sentinel like a
    missing one. *)
Theorem create_empty_address (t : table) (a : string) (request : HttpRequest.t)
    (kwargs : dict) (now : Z) (payload : string) (u : option nat) :
  wf t ->
  dumps kwargs = Ok payload ->
  fk_user (resolved_user request kwargs) = Ok u ->
  HttpRequest.resolved_ip request = Some "" ->
  exists e t',
    create a request kwargs now t = (Ok e, t') /\
    request_ip (fields e) = "255.255.255.255".
Proof.
  intros Hwf Hd Hu Hip. eexists. eexists.
  split; [apply (create_ok t a request kwargs now payload u Hwf Hd Hu) |].
  cbn [fields request_ip]. rewrite Hip. reflexivity.
Qed.

(** X4: a stored payload [loads] rejects is not swallowed and not cached:
    the read raises the exception of [loads], the instance is as before, and
    a further read calls [loads] again and raises again. *)
Theorem context_malformed_surfaces (e : instance) (log : list string) (x : exn) :
  truthy (_context_cache e) = false ->
  loads (_context (fields e)) = Raise x ->
  context (mkReader e log) =
    (Raise x, mkReader e (log ++ [_context (fields e)])) /\
  context (mkReader e (log ++ [_context (fields e)])) =
    (Raise x, mkReader e (log ++ [_context (fields e); _context (fields e)])).
Proof.
  intros Hc Hl. split.
  - now apply context_malformed.
  - rewrite (context_malformed e _ x Hc Hl). now rewrite <- app_assoc.
Qed.

(** X5: a payload that deserialises to a true value is read once.  The
    first read calls [loads] and caches the value; from then on a read
    returns the cached value, calls nothing and changes nothing. *)
Theorem context_cached_after_first_read (e : instance) (log : list string) (v : pyval) :
  truthy (_context_cache e) = false ->
  loads (_context (fields e)) = Ok v ->
  truthy v = true ->
  let st' := mkReader (mkInstance (fields e) v (adding e))
                      (log ++ [_context (fields e)]) in
  context (mkReader e log) = (Ok v, st') /\
  context st' = (Ok v, st') /\
  (context ;;; context ;;; context) (mkReader e log) = (Ok v, st').
Proof.
  intros Hc Hl Hv st'.
  assert (Hhit : context st' = (Ok v, st')) by (apply context_hit; exact Hv).
  split; [now apply context_miss |]. split; [exact Hhit |].
  unfold bind at 1. rewrite (context_miss e log v Hc Hl).
  fold st'. unfold bind. rewrite Hhit. exact Hhit.
Qed.

(** X6: repeated reads agree and leave the columns alone.  When a read of
    [context] returns a value, the columns and [_state.adding] of the
    instance are as before and the next read returns the same value. *)
Theorem context_reads_agree (st st' : reader) (v : pyval) :
  context st = (Ok v, st') ->
  fields (self st') = fields (self st) /\
  adding (self st') = adding (self st) /\
  exists st'', context st' = (Ok v, st'').
Proof.
  destruct st as [e log]. intros H.
  destruct (truthy (_context_cache e)) eqn:Hc.
  - rewrite (context_hit e log Hc) in H. inversion H; subst.
    repeat split. eexists. apply context_hit. exact Hc.
  - destruct (loads (_context (fields e))) as [w | x] eqn:Hl.
    + rewrite (context_miss e log w Hc Hl) in H. inversion H; subst.
      repeat split.
      destruct (truthy v) eqn:Hv.
      * eexists. rewrite context_hit; [reflexivity | exact Hv].
      * eexists. apply context_miss; [exact Hv | exact Hl].
    + rewrite (context_malformed e log x Hc Hl) in H. discriminate.
Qed.

(** X7: what [create] logs is what [context] reads back.  The first read of
    [context] on the entry a call of [create] returns calls [loads] once, on
    the text [dumps] gave for the keyword arguments, and returns its value. *)
Theorem create_then_context (t : table) (a : string) (request : HttpRequest.t)
    (kwargs : dict) (now : Z) (payload : string) (u : option nat) (v : pyval) :
  wf t ->
  dumps kwargs = Ok payload ->
  fk_user (resolved_user request kwargs) = Ok u ->
  loads payload = Ok v ->
  exists e t' e',
    create a request kwargs now t = (Ok e, t') /\
    context (mkReader e []) = (Ok v, mkReader e' [payload]) /\
    fields e' = fields e.
Proof.
  intros Hwf Hd Hu Hl. eexists. eexists. eexists.
  split; [apply (create_ok t a request kwargs now payload u Hwf Hd Hu) |].
  split.
  - rewrite (context_miss _ [] v); [reflexivity | reflexivity | exact Hl].
  - reflexivity.
Qed.

End MoreAuditEntry.

Lemma create_actor_witness :
  (exists e t',
     @AuditEntry.create json_on_empty "login"
        (HttpRequest.make (AuthUser 7) (Some "10.0.0.1") true) [] 0
        AuditEntry.empty = (Ok e, t') /\
     AuditEntry.user (AuditEntry.fields e) = Some 7) /\
  (exists e t',
     @AuditEntry.create json_on_empty "login" alice [] 0 AuditEntry.empty = (Ok e, t') /\
     AuditEntry.user (AuditEntry.fields e) = None).
Proof.
  split.
  - apply (proj1 (@create_actor json_on_empty AuditEntry.empty "login"
                    (HttpRequest.make (AuthUser 7) (Some "10.0.0.1") true) [] 0 "{}"
                    (Forall_nil _) eq_refl) 7 eq_refl).
  - apply (proj2 (@create_actor json_on_empty AuditEntry.empty "login" alice [] 0 "{}"
                    (Forall_nil _) eq_refl) eq_refl eq_refl).
Defined.

Lemma create_append_only_witness :
  AuditEntry.rows
    (snd (@AuditEntry.create json_small "login" alice [("user", PyUser (AuthUser 7))] 0
            AuditEntry.empty)) = [].
Proof.
  pose proof (@create_append_only json_small AuditEntry.empty "login" alice
                [("user", PyUser (AuthUser 7))] 0 (Forall_nil _)) as H.
  exact H.
Defined.

Lemma create_empty_address_witness :
  exists e t',
    @AuditEntry.create json_on_empty "login" (anonymous_from (Some "")) [] 0
       AuditEntry.empty = (Ok e, t') /\
    AuditEntry.request_ip (AuditEntry.fields e) = "255.255.255.255".
Proof.
  apply (@create_empty_address json_on_empty AuditEntry.empty "login"
           (anonymous_from (Some "")) [] 0 "{}" None (Forall_nil _)
           eq_refl eq_refl eq_refl).
Defined.

Lemma context_malformed_surfaces_witness :
  @AuditEntry.context json_small (AuditEntry.mkReader (entry_with "{oops") []) =
    (Raise JSONDecodeError, AuditEntry.mkReader (entry_with "{oops") ["{oops"]) /\
  @AuditEntry.context json_small (AuditEntry.mkReader (entry_with "{oops") ["{oops"]) =
    (Raise JSONDecodeError,
     AuditEntry.mkReader (entry_with "{oops") ["{oops"; "{oops"]).
Proof.
  apply (@context_malformed_surfaces json_small (entry_with "{oops") []
           JSONDecodeError eq_refl eq_refl).
Defined.

Lemma context_cached_after_first_read_witness :
  (@AuditEntry.context json_small ;;; @AuditEntry.context json_small
     ;;; @AuditEntry.context json_small)
    (AuditEntry.mkReader (entry_with "[1]") []) =
    (Ok (PyList [PyInt 1]),
     AuditEntry.mkReader
       (AuditEntry.mkInstance (AuditEntry.fields (entry_with "[1]"))
          (PyList [PyInt 1]) false)
       ["[1]"]).
Proof.
  apply (@context_cached_after_first_read json_small (entry_with "[1]") []
           (PyList [PyInt 1]) eq_refl eq_refl eq_refl).
Defined.

Lemma context_reads_agree_witness :
  exists st'',
    @AuditEntry.context json_small
      (AuditEntry.mkReader
         (AuditEntry.mkInstance (AuditEntry.fields (entry_with "{}")) (PyDict []) false)
         ["{}"]) = (Ok (PyDict []), st'').
Proof.
  apply (@context_reads_agree json_small
           (AuditEntry.mkReader (entry_with "{}") []) _ (PyDict []) eq_refl).
Defined.

Lemma create_then_context_witness :
  exists e t' e',
    @AuditEntry.create json_on_empty "login" alice [] 0 AuditEntry.empty = (Ok e, t') /\
    @AuditEntry.context json_on_empty (AuditEntry.mkReader e []) =
      (Ok (PyDict []), AuditEntry.mkReader e' ["{}"]) /\
    AuditEntry.fields e' = AuditEntry.fields e.
Proof.
  apply (@create_then_context json_on_empty AuditEntry.empty "login" alice [] 0
           "{}" None (PyDict []) (Forall_nil _) eq_refl eq_refl eq_refl).
Defined.

(** * Further properties of LoginAttempt *)

Section MoreLoginAttempt.

Import LoginAttempt.

Lemma last_cons_default {A : Type} (x d : A) (l : list A) :
  last (x :: l) d = last l x.
Proof.
  revert x d. induction l as [| y l IH]; intros x d; [reflexivity |].
  change (last (x :: y :: l) d) with (last (y :: l) d).
  rewrite IH. symmetry. apply IH.
Qed.

Lemma attempts_at_chain (k : string) (request : HttpRequest.t) (t : table)
    (times : list Z) :
  wf t ->
  for_pair (slice_to 254 k) (HttpRequest.resolved_ip request) t = [] ->
  forall c made upd,
    spaced (timedelta_minutes 10) upd times ->
    attempts_at k request times
      (mkTable (rows t ++ [mkInstance (next_id t) (slice_to 254 k)
                             (HttpRequest.resolved_ip request) c made upd])
               (S (next_id t))) =
      (Ok tt,
       mkTable (rows t ++ [mkInstance (next_id t) (slice_to 254 k)
                             (HttpRequest.resolved_ip request)
                             (c + Z.of_nat (List.length times)) made
                             (last times upd)])
               (S (next_id t))).
Proof.
  intros Hwf Hnone. pose proof (wf_fresh t Hwf) as Hfresh.
  induction times as [| x rest IH]; intros c made upd Hsp.
  - cbn. now rewrite Z.add_0_r.
  - destruct Hsp as [Hx Hrest].
    cbn [attempts_at]. unfold bind at 1.
    assert (Hw : (x - timedelta_minutes 10 < upd)%Z) by lia.
    rewrite (attempt_of_body k request x _ _ _
               (attempt_body_last_row k request x (rows t)
                  (mkInstance (next_id t) (slice_to 254 k)
                     (HttpRequest.resolved_ip request) c made upd)
                  (S (next_id t))
                  (for_pair_nil_window _ _ _ t Hnone)
                  (fresh_row_in_window _ _ _ c made upd x Hw)
                  Hfresh)).
    unfold counted_up, touch, incr_attempts.
    cbn [id target_uid request_ip attempts created last_updated].
    rewrite (IH (c + 1)%Z made x Hrest).
    rewrite last_cons_default.
    replace (c + 1 + Z.of_nat (List.length rest))%Z
      with (c + Z.of_nat (List.length (x :: rest)))%Z
      by (cbn [List.length]; lia).
    reflexivity.
Qed.

(** X8: the window trails the last update, not the creation.  A run of
    calls for one key and address in which every call comes less than ten
    minutes after the one before it is counted on one record, however long
    the whole run lasts: the record counts the calls, keeps the time of the
    first as [created] and carries the time of the last as
    [last_updated]. *)
Theorem attempts_slide (k : string) (request : HttpRequest.t) (t : table)
    (t0 : Z) (times : list Z) :
  wf t ->
  for_pair (slice_to 254 k) (HttpRequest.resolved_ip request) t = [] ->
  spaced (timedelta_minutes 10) t0 times ->
  attempts_at k request (t0 :: times) t =
    (Ok tt,
     mkTable (rows t ++ [mkInstance (next_id t) (slice_to 254 k)
                           (HttpRequest.resolved_ip request)
                           (1 + Z.of_nat (List.length times)) t0
                           (last times t0)])
             (S (next_id t))).
Proof.
  intros Hwf Hnone Hsp.
  cbn [attempts_at]. unfold bind at 1.
  rewrite (attempt_of_body k request t0 t _ _
             (attempt_body_no_match k request t0 t
                (for_pair_nil_window _ _ _ t Hnone))).
  now apply attempts_at_chain.
Qed.

(** The row standing at a place after the call, for a row of the table. *)
Lemma rewritten_row (now : Z) (a r : instance) (t : table) :
  wf t -> In a (rows t) -> In r (rows t) ->
  (if (id r =? id a)%nat then counted_up now a else r) =
  (if (id r =? id a)%nat then counted_up now r else r) /\
  ((id r =? id a)%nat = true -> r = a).
Proof.
  intros [_ Hnd] Ha Hr.
  destruct (id r =? id a)%nat eqn:E.
  - apply Nat.eqb_eq in E.
    assert (r = a) by (apply (NoDup_key_inj (rows t)); auto).
    subst. split; auto.
  - split; [reflexivity | discriminate].
Qed.

(** X9: [unique_together] is kept.  On a table with unique keys whose rows
    were created no later than last updated and last updated no later than
    the time of the call, a call of [attempt] leaves no two rows with the
    same target, address and [created], and the stamps in order again. *)
Theorem attempt_keeps_unique_together (k : string) (request : HttpRequest.t)
    (now : Z) (t : table) :
  wf t ->
  unique_together t ->
  stamped_until now t ->
  unique_together (snd (attempt k request now t)) /\
  stamped_until now (snd (attempt k request now t)).
Proof.
  intros Hwf Huniq Hst.
  destruct (existing_attempts k (HttpRequest.resolved_ip request) now t)
    as [| a0 q] eqn:Hq.
  - apply existing_attempts_nil in Hq.
    rewrite (attempt_of_body _ _ _ _ _ _ (attempt_body_no_match k request now t Hq)).
    cbn [snd]. split.
    + assert (Hnew : forall b, In b (rows t) ->
                target_uid b = slice_to 254 k ->
                request_ip b = HttpRequest.resolved_ip request ->
                created b <> now).
      { intros b Hb Hk Hip Hc.
        assert (Hw : in_window (slice_to 254 k) (HttpRequest.resolved_ip request)
                       (now - timedelta_minutes 10) b = true).
        { unfold in_window. rewrite Hk, Hip, String.eqb_refl, ip_eqb_refl.
          cbn. apply Z.ltb_lt.
          unfold stamped_until in Hst. rewrite Forall_forall in Hst.
          specialize (Hst b Hb). unfold timedelta_minutes. lia. }
        assert (Hin : In b (filter (in_window (slice_to 254 k)
                                      (HttpRequest.resolved_ip request)
                                      (now - timedelta_minutes 10)) (rows t)))
          by (apply filter_In; split; assumption).
        rewrite Hq in Hin. exact Hin. }
      unfold unique_together. cbn [rows]. intros a b Ha Hb Hk Hip Hc.
      apply in_app_or in Ha. apply in_app_or in Hb.
      destruct Ha as [Ha | [<- | []]], Hb as [Hb | [<- | []]].
      * now apply Huniq.
      * exfalso. cbn in Hk, Hip, Hc. now apply (Hnew a Ha).
      * exfalso. cbn in Hk, Hip, Hc. symmetry in Hk, Hip, Hc.
        now apply (Hnew b Hb).
      * reflexivity.
    + unfold stamped_until in *. cbn [rows]. apply Forall_app. split.
      * exact Hst.
      * constructor; [cbn; lia | constructor].
  - rewrite (attempt_of_body _ _ _ _ _ _ (attempt_body_match k request now t a0 q Hq)).
    cbn [snd].
    assert (Ha0 : In a0 (rows t)).
    { assert (Hin : In a0 (existing_attempts k (HttpRequest.resolved_ip request) now t))
        by (rewrite Hq; now left).
      apply existing_attempts_In in Hin. tauto. }
    unfold stamped_until in Hst. rewrite Forall_forall in Hst.
    split.
    + unfold unique_together, rewritten. cbn [rows]. intros a b Ha Hb Hk Hip Hc.
      apply in_map_iff in Ha. destruct Ha as (x & <- & Hx).
      apply in_map_iff in Hb. destruct Hb as (y & <- & Hy).
      destruct (rewritten_row now a0 x t Hwf Ha0 Hx) as [Ex _].
      destruct (rewritten_row now a0 y t Hwf Ha0 Hy) as [Ey _].
      rewrite Ex in *. rewrite Ey in *.
      assert (x = y) as ->; [| reflexivity].
      apply Huniq; auto.
      * destruct (id x =? id a0)%nat, (id y =? id a0)%nat; exact Hk.
      * destruct (id x =? id a0)%nat, (id y =? id a0)%nat; exact Hip.
      * destruct (id x =? id a0)%nat, (id y =? id a0)%nat; exact Hc.
    + unfold stamped_until, rewritten. cbn [rows]. apply Forall_forall.
      intros r Hr. apply in_map_iff in Hr. destruct Hr as (x & <- & Hx).
      destruct (id x =? id a0)%nat.
      * specialize (Hst a0 Ha0). cbn. lia.
      * exact (Hst x Hx).
Qed.

(** X10: the bounds of the columns are kept.  When every row counts at least
    1 and holds a key of at most 254 characters, so does every row after a
    call of [attempt], the one it inserted or counted up included. *)
Theorem attempt_keeps_bounds (k : string) (request : HttpRequest.t)
    (now : Z) (t : table) :
  within_bounds t -> within_bounds (snd (attempt k request now t)).
Proof.
  intros Hb. unfold within_bounds in *.
  destruct (existing_attempts k (HttpRequest.resolved_ip request) now t)
    as [| a0 q] eqn:Hq.
  - apply existing_attempts_nil in Hq.
    rewrite (attempt_of_body _ _ _ _ _ _ (attempt_body_no_match k request now t Hq)).
    cbn [snd rows]. apply Forall_app. split; [exact Hb |].
    constructor; [| constructor]. cbn [attempts target_uid]. split; [lia |].
    rewrite slice_to_length. lia.
  - rewrite (attempt_of_body _ _ _ _ _ _ (attempt_body_match k request now t a0 q Hq)).
    cbn [snd]. unfold rewritten. cbn [rows].
    assert (Ha0 : In a0 (rows t)).
    { assert (Hin : In a0 (existing_attempts k (HttpRequest.resolved_ip request) now t))
        by (rewrite Hq; now left).
      apply existing_attempts_In in Hin. tauto. }
    rewrite Forall_forall in Hb. apply Forall_forall.
    intros r Hr. apply in_map_iff in Hr. destruct Hr as (x & <- & Hx).
    destruct (id x =? id a0)%nat.
    + destruct (Hb a0 Ha0) as [Hc Hl]. cbn. split; [lia | exact Hl].
    + exact (Hb x Hx).
Qed.

Lemma total_map_counted (now : Z) (a : instance) (l : list instance) :
  NoDup (map id l) -> In a l ->
  fold_right (fun r s => (attempts r + s)%Z) 0%Z
    (map (fun r => if (id r =? id a)%nat then counted_up now a else r) l) =
  (fold_right (fun r s => (attempts r + s)%Z) 0%Z l + 1)%Z.
Proof.
  induction l as [| x l IH]; cbn [map fold_right In]; [tauto |].
  intros Hnd Ha. inversion Hnd as [| ? ? Hx Hnd']; subst.
  destruct Ha as [-> | Ha].
  - rewrite Nat.eqb_refl.
    rewrite map_other_keys.
    + cbn. lia.
    + apply Forall_forall. intros r Hr Hid. apply Hx. rewrite <- Hid.
      now apply in_map.
  - assert (Hne : (id x =? id a)%nat = false).
    { apply Nat.eqb_neq. intros Hid. apply Hx. rewrite Hid. now apply in_map. }
    rewrite Hne, IH; auto. lia.
Qed.

(** Against a table that takes every row, the attempts counted by all rows
    together are one more after [attempt] than before, on either path. *)
Lemma attempt_total (k : string) (request : HttpRequest.t)
    (now : Z) (t : table) :
  wf t ->
  total_attempts (snd (attempt k request now t)) = (total_attempts t + 1)%Z.
Proof.
  intros [_ Hnd]. unfold total_attempts.
  destruct (existing_attempts k (HttpRequest.resolved_ip request) now t)
    as [| a0 q] eqn:Hq.
  - apply existing_attempts_nil in Hq.
    rewrite (attempt_of_body _ _ _ _ _ _ (attempt_body_no_match k request now t Hq)).
    cbn [snd rows]. rewrite fold_right_app. cbn [fold_right attempts].
    generalize (rows t). intros l.
    induction l as [| x l IH]; cbn [fold_right]; [lia | rewrite IH; lia].
  - rewrite (attempt_of_body _ _ _ _ _ _ (attempt_body_match k request now t a0 q Hq)).
    cbn [snd]. unfold rewritten. cbn [rows].
    apply total_map_counted; [exact Hnd |].
    assert (Hin : In a0 (existing_attempts k (HttpRequest.resolved_ip request) now t))
      by (rewrite Hq; now left).
    apply existing_attempts_In in Hin. tauto.
Qed.

(** X12: rows outside the query are out of reach.  A row of another target,
    of another address, or last updated at or before the threshold stands
    unchanged at its place after a call of [attempt] on a table with unique
    keys. *)
Theorem attempt_leaves_rows_outside_window (k : string) (request : HttpRequest.t)
    (now : Z) (t : table) (i : nat) (b : instance) :
  wf t ->
  nth_error (rows t) i = Some b ->
  in_window (slice_to 254 k) (HttpRequest.resolved_ip request)
            (now - timedelta_minutes 10) b = false ->
  nth_error (rows (snd (attempt k request now t))) i = Some b.
Proof.
  intros Hwf Hi Hout.
  destruct (existing_attempts k (HttpRequest.resolved_ip request) now t)
    as [| a0 q] eqn:Hq.
  - apply existing_attempts_nil in Hq.
    rewrite (attempt_of_body _ _ _ _ _ _ (attempt_body_no_match k request now t Hq)).
    cbn [snd rows]. rewrite nth_error_app1; [exact Hi |].
    apply nth_error_Some. congruence.
  - rewrite (attempt_of_body _ _ _ _ _ _ (attempt_body_match k request now t a0 q Hq)).
    cbn [snd].
    assert (Hin : In a0 (existing_attempts k (HttpRequest.resolved_ip request) now t))
      by (rewrite Hq; now left).
    apply existing_attempts_In in Hin. destruct Hin as [Ha0 Hw0].
    destruct (rewritten_nth now a0 t i b Hwf Ha0 Hi) as [Hn Hk].
    rewrite Hn, Hk; [reflexivity |]. congruence.
Qed.

(** X13: what a call never does to a row.  After a call of [attempt] on a
    table with unique keys every row of the table is still at its place
    with its key, target, address and [created]; its count is the same or
    one higher, and its [last_updated] the same or the time of the call.
    No row is removed and at most one is added. *)
Theorem attempt_keeps_rows (k : string) (request : HttpRequest.t)
    (now : Z) (t : table) :
  wf t ->
  (forall i b, nth_error (rows t) i = Some b ->
     exists b',
       nth_error (rows (snd (attempt k request now t))) i = Some b' /\
       id b' = id b /\ target_uid b' = target_uid b /\
       request_ip b' = request_ip b /\ created b' = created b /\
       (attempts b <= attempts b' <= attempts b + 1)%Z /\
       (last_updated b' = last_updated b \/ last_updated b' = now)) /\
  List.length (rows t) <= List.length (rows (snd (attempt k request now t)))
    <= S (List.length (rows t)).
Proof.
  intros Hwf.
  destruct (existing_attempts k (HttpRequest.resolved_ip request) now t)
    as [| a0 q] eqn:Hq.
  - apply existing_attempts_nil in Hq.
    rewrite (attempt_of_body _ _ _ _ _ _ (attempt_body_no_match k request now t Hq)).
    cbn [snd rows]. split.
    + intros i b Hi. exists b. rewrite nth_error_app1.
      * repeat split; auto; lia.
      * apply nth_error_Some. congruence.
    + rewrite length_app. cbn. lia.
  - rewrite (attempt_of_body _ _ _ _ _ _ (attempt_body_match k request now t a0 q Hq)).
    cbn [snd].
    assert (Hin : In a0 (existing_attempts k (HttpRequest.resolved_ip request) now t))
      by (rewrite Hq; now left).
    apply existing_attempts_In in Hin. destruct Hin as [Ha0 _].
    split.
    + intros i b Hi.
      destruct (rewritten_nth now a0 t i b Hwf Ha0 Hi) as [Hn _].
      destruct (rewritten_row now a0 b t Hwf Ha0 (nth_error_In _ _ Hi)) as [Er _].
      rewrite Er in Hn. eexists. split; [exact Hn |].
      destruct (id b =? id a0)%nat; cbn; repeat split; auto; lia.
    + unfold rewritten. cbn [rows]. rewrite length_map. lia.
Qed.

Lemma slice_to_short (n : nat) (s : string) :
  String.length s <= n -> slice_to n s = s.
Proof.
  revert s. induction n as [| n IH]; intros [| c s]; cbn; intros H;
    try reflexivity; try lia.
  rewrite IH; [reflexivity | lia].
Qed.

Lemma append_cancel_l (s x y : string) :
  (s ++ x)%string = (s ++ y)%string -> x = y.
Proof.
  induction s as [| c s IH]; cbn; intros H; [exact H |].
  inversion H. auto.
Qed.

Lemma append_cancel_last (c : ascii) (x y : string) :
  (x ++ String c "")%string = (y ++ String c "")%string -> x = y.
Proof.
  revert y. induction x as [| a x IH]; intros [| b y]; cbn; intros H.
  - reflexivity.
  - inversion H as [[Hc Hy]]. destruct y; discriminate Hy.
  - inversion H as [[Hc Hx]]. destruct x; discriminate Hx.
  - inversion H. f_equal. now apply IH.
Qed.

Lemma to_int_nonnil (z : Z) : Z.to_int z <> Decimal.Pos Decimal.Nil /\
                              Z.to_int z <> Decimal.Neg Decimal.Nil.
Proof.
  destruct z as [| p | p]; cbn; split; try discriminate;
    intros H; inversion H as [Hp]; now apply Unsigned.to_uint_nonnil in Hp.
Qed.

Lemma str_of_int_inj (a b : Z) : str_of_int a = str_of_int b -> a = b.
Proof.
  unfold str_of_int. intros H.
  apply DecimalZ.to_int_inj.
  destruct (to_int_nonnil a) as [Ha1 Ha2], (to_int_nonnil b) as [Hb1 Hb2].
  pose proof (NilZero.isi (Z.to_int a) Ha1 Ha2) as Ia.
  pose proof (NilZero.isi (Z.to_int b) Hb1 Hb2) as Ib.
  rewrite H in Ia. rewrite Ia in Ib. now inversion Ib.
Qed.

(** X15: the text of a record tells counts apart.  Two records of one
    target and one address whose [__str__] is the same text count the same
    number of attempts; the count is printed in decimal, with its sign. *)
Theorem str_tells_counts_apart (a b : instance) :
  target_uid a = target_uid b ->
  request_ip a = request_ip b ->
  __str__ a = __str__ b ->
  attempts a = attempts b.
Proof.
  unfold __str__. intros Ht Hip H. rewrite Ht, Hip in H.
  repeat (apply append_cancel_l in H).
  apply append_cancel_last in H.
  now apply str_of_int_inj.
Qed.

End MoreLoginAttempt.

Lemma attempts_slide_witness :
  attempts_at "alice" alice [0; 540000000; 1080000000; 1620000000]%Z
    LoginAttempt.empty =
    (Ok tt,
     LoginAttempt.mkTable
       [LoginAttempt.mkInstance 0 "alice" (Some "10.0.0.1") 4 0 1620000000] 1).
Proof.
  apply (attempts_slide "alice" alice LoginAttempt.empty 0
           [540000000; 1080000000; 1620000000]%Z wf_empty eq_refl).
  unfold timedelta_minutes. cbn. lia.
Defined.

(** The table of the examples is [unique_together] and stamped before 10. *)
Lemma overlapping_unique : LoginAttempt.unique_together overlapping.
Proof.
  intros a b Ha Hb _ _ Hc. cbn in Ha, Hb.
  destruct Ha as [<- | [<- | [<- | []]]], Hb as [<- | [<- | [<- | []]]];
    cbn in Hc; try reflexivity; discriminate Hc.
Qed.

Lemma overlapping_stamped : stamped_until 10 overlapping.
Proof.
  repeat constructor; cbn; lia.
Qed.

Lemma attempt_keeps_unique_together_witness :
  LoginAttempt.unique_together
    (snd (LoginAttempt.attempt "alice" alice 10 overlapping)) /\
  stamped_until 10 (snd (LoginAttempt.attempt "alice" alice 10 overlapping)).
Proof.
  apply (attempt_keeps_unique_together "alice" alice 10 overlapping).
  - exact wf_overlapping.
  - exact overlapping_unique.
  - exact overlapping_stamped.
Defined.

Lemma attempt_keeps_bounds_witness :
  within_bounds (snd (LoginAttempt.attempt "alice" alice 10 overlapping)).
Proof.
  apply (attempt_keeps_bounds "alice" alice 10 overlapping).
  repeat constructor; cbn; lia.
Defined.

Lemma attempt_leaves_rows_outside_window_witness :
  nth_error
    (LoginAttempt.rows (snd (LoginAttempt.attempt "alice" alice 10 overlapping))) 2 =
    Some (LoginAttempt.mkInstance 2 "alice" (Some "255.255.255.255") 1 6 6).
Proof.
  apply (attempt_leaves_rows_outside_window "alice" alice 10 overlapping 2 _
           wf_overlapping eq_refl eq_refl).
Defined.

Lemma attempt_keeps_rows_witness :
  List.length (LoginAttempt.rows overlapping)
    <= List.length (LoginAttempt.rows (snd (LoginAttempt.attempt "alice" alice 10 overlapping)))
    <= S (List.length (LoginAttempt.rows overlapping)).
Proof.
  apply (attempt_keeps_rows "alice" alice 10 overlapping wf_overlapping).
Defined.

Lemma str_tells_counts_apart_witness :
  LoginAttempt.attempts (LoginAttempt.mkInstance 0 "alice" (Some "10.0.0.1") 4 3 7) =
  LoginAttempt.attempts (LoginAttempt.mkInstance 1 "alice" (Some "10.0.0.1") 4 5 9).
Proof.
  apply (str_tells_counts_apart
           (LoginAttempt.mkInstance 0 "alice" (Some "10.0.0.1") 4 3 7)
           (LoginAttempt.mkInstance 1 "alice" (Some "10.0.0.1") 4 5 9)
           eq_refl eq_refl eq_refl).
Defined.

(** * The calls against the tables under their constraints *)

Section ConstrainedAttempt.

Import LoginAttempt.

Lemma attempt_db_unfold (k : string) (request : HttpRequest.t) (now : Z) (t : table) :
  attempt_db k request now t =
    if constraints_hold (snd (attempt k request now t))
    then attempt k request now t
    else (Raise IntegrityError, t).
Proof.
  unfold attempt_db. destruct (attempt k request now t) as [r t'].
  cbn [snd]. destruct (constraints_hold t'); reflexivity.
Qed.

(** In a table whose rows all have an address, a query for the rows without
    address finds nothing. *)
Lemma no_address_no_match (key : string) (thr : Z) (l : list instance) :
  forallb not_null l = true -> filter (in_window key None thr) l = [].
Proof.
  induction l as [| a l IH]; cbn [forallb filter]; [reflexivity |].
  intros H. apply andb_true_iff in H. destruct H as [Ha Hl].
  unfold not_null in Ha. unfold in_window at 1.
  destruct (request_ip a) as [s |]; [| discriminate Ha].
  cbn [ip_eqb]. rewrite andb_false_r. cbn [andb]. now apply IH.
Qed.

(** C10, as the code and the column have it: [attempt] has no fallback for
    an unresolved address.  It hands [None] as it is to the filter, which
    finds nothing in a table whose rows all have an address, the rows filed
    under the sentinel included, and as it is to [create]; the NOT NULL
    column refuses the row, so the call raises [IntegrityError] and the
    table is as it was: no record is created and none is counted up. *)
Theorem unresolved_address_is_not_replaced (k : string) (request : HttpRequest.t)
    (now : Z) (t : table) :
  constraints_hold t = true ->
  HttpRequest.resolved_ip request = None ->
  existing_attempts k None now t = [] /\
  attempt_body k request now t = objects_create (slice_to 254 k) None now t /\
  attempt_db k request now t = (Raise IntegrityError, t).
Proof.
  intros Hc Hip. apply andb_true_iff in Hc. destruct Hc as [Hnn _].
  assert (Hex : existing_attempts k None now t = []).
  { apply existing_attempts_nil. now apply no_address_no_match. }
  pose proof (attempt_body_create k request now t) as Hb.
  rewrite Hip in Hb. specialize (Hb Hex).
  split; [exact Hex |]. split; [exact Hb |].
  rewrite attempt_db_unfold.
  assert (Hrun : attempt k request now t =
            (Ok None,
             mkTable (rows t ++ [mkInstance (next_id t) (slice_to 254 k) None 1 now now])
                     (S (next_id t)))).
  { eapply attempt_of_body. rewrite Hb. reflexivity. }
  rewrite Hrun. cbn [snd]. unfold constraints_hold. cbn [rows].
  rewrite forallb_app. cbn [forallb not_null request_ip].
  now rewrite !andb_false_r.
Qed.

(** C6, as the code has it: a call of [attempt] never evaluates to a
    record.  Against the table under its constraints the call either raises
    [IntegrityError] and leaves the table as it was, or returns [None]; in
    that case the record it created or counted up was the value of its
    local variable and is in the table, under its key and with its count. *)
Theorem attempt_returns_none (k : string) (request : HttpRequest.t)
    (now : Z) (t : table) :
  (forall r t', attempt k request now t = (Ok r, t') -> r = None) /\
  (forall r t', attempt_db k request now t = (Ok r, t') -> r = None) /\
  (attempt_db k request now t = (Raise IntegrityError, t) \/
   exists a t',
     attempt_db k request now t = (Ok None, t') /\
     attempt_body k request now t = (Ok a, t') /\
     exists row, In row (rows t') /\ id row = id a /\ attempts row = attempts a).
Proof.
  destruct (attempt_leaves_record k request now t) as (a & t1 & Hb & Hin & Hrun).
  split; [| split].
  - intros r t' H. rewrite Hrun in H. now inversion H.
  - intros r t' H. rewrite attempt_db_unfold, Hrun in H. cbn [snd] in H.
    destruct (constraints_hold t1); [now inversion H | discriminate H].
  - rewrite attempt_db_unfold, Hrun. cbn [snd].
    destruct (constraints_hold t1).
    + right. exists a, t1. split; [reflexivity |]. split; [exact Hb |].
      exists a. auto.
    + now left.
Qed.

(** X11: a call is counted once or not at all.  On a table with unique
    keys, after a call of [attempt] that returns the attempts counted by
    all rows together are one more than before, on either path; a call the
    constraints of the table refuse leaves the table, and the count, as they
    were. *)
Theorem attempt_counts_once (k : string) (request : HttpRequest.t)
    (now : Z) (t : table) :
  wf t ->
  match attempt_db k request now t with
  | (Ok _, t') => total_attempts t' = (total_attempts t + 1)%Z
  | (Raise _, t') => t' = t
  end.
Proof.
  intros Hwf. pose proof (attempt_total k request now t Hwf) as Htot.
  destruct (attempt_leaves_record k request now t) as (a & t1 & _ & _ & Hrun).
  rewrite attempt_db_unfold, Hrun. rewrite Hrun in Htot. cbn [snd] in *.
  destruct (constraints_hold t1); [exact Htot | reflexivity].
Qed.

(** X14: a key of at most 254 characters is used as given.  After a call
    with such a key that returns, the record the call created or counted up
    is in the table under exactly that key, last updated at the time of the
    call. *)
Theorem attempt_short_key_verbatim (k : string) (request : HttpRequest.t)
    (now : Z) (t : table) :
  String.length k <= 254 ->
  forall r t', attempt_db k request now t = (Ok r, t') ->
    exists a row,
      attempt_body k request now t = (Ok a, t') /\
      In row (rows t') /\ id row = id a /\
      target_uid row = k /\ last_updated row = now.
Proof.
  intros Hlen r t' Hdb. pose proof (slice_to_short 254 k Hlen) as Hk.
  rewrite attempt_db_unfold in Hdb.
  destruct (existing_attempts k (HttpRequest.resolved_ip request) now t)
    as [| a0 q] eqn:Hq.
  - apply existing_attempts_nil in Hq.
    pose proof (attempt_body_no_match k request now t Hq) as Hb.
    rewrite (attempt_of_body _ _ _ _ _ _ Hb) in Hdb. cbn [snd] in Hdb.
    match type of Hdb with
    | (if ?c then _ else _) = _ => destruct c; [| discriminate Hdb]
    end.
    inversion Hdb; subst. eexists. eexists. split; [exact Hb |].
    split; [cbn [rows]; apply in_or_app; right; now left |].
    cbn. auto.
  - pose proof (attempt_body_match k request now t a0 q Hq) as Hb.
    assert (Hin : In a0 (existing_attempts k (HttpRequest.resolved_ip request) now t))
      by (rewrite Hq; now left).
    apply existing_attempts_In in Hin. destruct Hin as [Ha0 Hw0].
    apply in_window_fields in Hw0. destruct Hw0 as (Ht & _ & _).
    rewrite (attempt_of_body _ _ _ _ _ _ Hb) in Hdb. cbn [snd] in Hdb.
    match type of Hdb with
    | (if ?c then _ else _) = _ => destruct c; [| discriminate Hdb]
    end.
    inversion Hdb; subst.
    exists (counted_up now a0), (counted_up now a0).
    split; [exact Hb |]. split; [now apply rewritten_In |].
    cbn. rewrite Ht. auto.
Qed.

End ConstrainedAttempt.

Section ConstraintsKept.

Import LoginAttempt.

Lemma triples_unique_snoc (l : list instance) (x : instance) :
  triples_unique (l ++ [x]) =
  triples_unique l && forallb (fun a => negb (same_triple a x)) l.
Proof.
  induction l as [| a l IH]; cbn [app triples_unique forallb existsb].
  - reflexivity.
  - rewrite existsb_app, IH. cbn [existsb]. rewrite orb_false_r.
    destruct (existsb (same_triple a) l), (same_triple a x), (triples_unique l),
      (forallb (fun a0 => negb (same_triple a0 x)) l); reflexivity.
Qed.

Lemma same_triple_fields (a a' b b' : instance) :
  target_uid a' = target_uid a -> request_ip a' = request_ip a ->
  created a' = created a ->
  target_uid b' = target_uid b -> request_ip b' = request_ip b ->
  created b' = created b ->
  same_triple a' b' = same_triple a b.
Proof.
  unfold same_triple. intros -> -> -> -> -> ->. reflexivity.
Qed.

Lemma triples_unique_map (f : instance -> instance) (l : list instance) :
  (forall x, In x l ->
     target_uid (f x) = target_uid x /\ request_ip (f x) = request_ip x /\
     created (f x) = created x) ->
  triples_unique (map f l) = triples_unique l.
Proof.
  induction l as [| a l IH]; intros Hf; cbn [map triples_unique]; [reflexivity |].
  rewrite IH by (intros x Hx; apply Hf; now right).
  f_equal. f_equal.
  destruct (Hf a (or_introl eq_refl)) as (Ha1 & Ha2 & Ha3).
  assert (Hl : forall x, In x l ->
            target_uid (f x) = target_uid x /\ request_ip (f x) = request_ip x /\
            created (f x) = created x)
    by (intros x Hx; apply Hf; now right).
  clear IH Hf. induction l as [| b l IHl]; cbn [map existsb]; [reflexivity |].
  destruct (Hl b (or_introl eq_refl)) as (Hb1 & Hb2 & Hb3).
  rewrite (same_triple_fields a (f a) b (f b)) by assumption.
  rewrite IHl by (intros x Hx; apply Hl; now right). reflexivity.
Qed.

(** The constraints refuse nothing but a missing address or a clock set
    back: on a table with unique keys that satisfies them and whose rows
    were created no later than last updated and last updated no later than
    the time of the call, a call with a resolved address goes through as
    against the table that takes every row, and the constraints hold
    again. *)
Lemma attempt_db_goes_through (k : string) (request : HttpRequest.t) (now : Z)
    (t : table) (addr : string) :
  wf t ->
  constraints_hold t = true ->
  stamped_until now t ->
  HttpRequest.resolved_ip request = Some addr ->
  attempt_db k request now t = attempt k request now t /\
  constraints_hold (snd (attempt k request now t)) = true.
Proof.
  intros Hwf Hc Hst Hip.
  assert (Hgoal : constraints_hold (snd (attempt k request now t)) = true).
  { apply andb_true_iff in Hc. destruct Hc as [Hnn Huq].
    unfold stamped_until in Hst. rewrite Forall_forall in Hst.
    destruct (existing_attempts k (HttpRequest.resolved_ip request) now t)
      as [| a0 q] eqn:Hq.
    - apply existing_attempts_nil in Hq.
      rewrite (attempt_of_body _ _ _ _ _ _ (attempt_body_no_match k request now t Hq)).
      cbn [snd]. unfold constraints_hold. cbn [rows].
      rewrite forallb_app, triples_unique_snoc, Hnn, Huq.
      cbn [forallb not_null request_ip]. rewrite Hip. cbn [andb].
      apply forallb_forall. intros a Ha.
      destruct (same_triple a _) eqn:Hs; [| reflexivity]. exfalso.
      unfold same_triple in Hs. cbn [target_uid request_ip created] in Hs.
      rewrite !andb_true_iff, String.eqb_eq, ip_eqb_eq, Z.eqb_eq in Hs.
      destruct Hs as [[Hk Hi] Hcr].
      assert (Hw : in_window (slice_to 254 k) (HttpRequest.resolved_ip request)
                     (now - timedelta_minutes 10) a = true).
      { unfold in_window. rewrite Hk, Hi, Hip, String.eqb_refl, ip_eqb_refl.
        cbn [andb]. apply Z.ltb_lt. specialize (Hst a Ha).
        unfold timedelta_minutes. lia. }
      assert (Hin : In a (filter (in_window (slice_to 254 k)
                                    (HttpRequest.resolved_ip request)
                                    (now - timedelta_minutes 10)) (rows t)))
        by (apply filter_In; split; assumption).
      rewrite Hq in Hin. exact Hin.
    - rewrite (attempt_of_body _ _ _ _ _ _ (attempt_body_match k request now t a0 q Hq)).
      cbn [snd].
      assert (Ha0 : In a0 (rows t)).
      { assert (Hin : In a0 (existing_attempts k (HttpRequest.resolved_ip request) now t))
          by (rewrite Hq; now left).
        apply existing_attempts_In in Hin. tauto. }
      assert (Hf : forall x, In x (rows t) ->
                target_uid (if (id x =? id a0)%nat then counted_up now a0 else x)
                  = target_uid x /\
                request_ip (if (id x =? id a0)%nat then counted_up now a0 else x)
                  = request_ip x /\
                created (if (id x =? id a0)%nat then counted_up now a0 else x)
                  = created x).
      { intros x Hx. destruct (rewritten_row now a0 x t Hwf Ha0 Hx) as [Ex _].
        rewrite Ex. destruct (id x =? id a0)%nat; cbn; auto. }
      unfold constraints_hold, rewritten. cbn [rows].
      rewrite (triples_unique_map _ (rows t) Hf), Huq, andb_true_r.
      apply forallb_forall. intros x' Hx'.
      apply in_map_iff in Hx'. destruct Hx' as (x & <- & Hx).
      rewrite forallb_forall in Hnn. specialize (Hnn x Hx).
      destruct (Hf x Hx) as (_ & Hi & _).
      unfold not_null in *. now rewrite Hi. }
  split; [| exact Hgoal].
  rewrite attempt_db_unfold, Hgoal. reflexivity.
Qed.

End ConstraintsKept.

Section WrittenAddress.

Import AuditEntry.

Context {J : Json} {I : Ipv6}.

Lemma get_prep_value_plain (value : string) :
  has_colon value = false -> get_prep_value value = value.
Proof.
  intros H. unfold get_prep_value. now rewrite H, andb_false_r.
Qed.

(** C8, as the code and the column have it.  The entry [create] returns
    holds the sentinel [255.255.255.255] when the resolver gives no address
    and the address itself, unchanged, when it gives one.  The row the data
    base holds carries that text in the written form of the address field:
    the sentinel as it is, an address without a colon (IPv4) as it is, a
    text with a colon as [clean_ipv6_address] rewrites it. *)
Theorem create_source_address (t : table) (a : string)
    (request : HttpRequest.t) (kwargs : dict) (now : Z)
    (payload : string) (u : option nat) :
  wf t ->
  dumps kwargs = Ok payload ->
  fk_user (resolved_user request kwargs) = Ok u ->
  exists e t',
    create a request kwargs now t = (Ok e, t') /\
    stored t' = (stored t ++ [written (fields e)])%list /\
    (HttpRequest.resolved_ip request = None ->
     request_ip (fields e) = "255.255.255.255" /\
     request_ip (written (fields e)) = "255.255.255.255") /\
    (forall addr, HttpRequest.resolved_ip request = Some addr -> addr <> "" ->
     request_ip (fields e) = addr /\
     request_ip (written (fields e)) = get_prep_value addr /\
     (has_colon addr = false -> request_ip (written (fields e)) = addr)).
Proof.
  intros Hwf Hd Hu.
  eexists. eexists.
  split; [apply (create_ok t a request kwargs now payload u Hwf Hd Hu) |].
  split; [unfold stored; cbn [rows]; now rewrite map_app |].
  cbn [fields request_ip written]. split.
  - intros ->. split; reflexivity.
  - intros addr -> Hne. unfold str_or.
    apply String.eqb_neq in Hne. rewrite Hne.
    split; [reflexivity |]. split; [reflexivity |].
    apply get_prep_value_plain.
Qed.

End WrittenAddress.

(** The calls against the constrained table on the tables of the examples:
    a call that goes through, a call without address, and a call the unique
    index refuses. *)
Example attempt_db_on_overlapping :
  attempt_db "alice" alice 10 overlapping =
    (Ok None,
     LoginAttempt.mkTable
       [ LoginAttempt.mkInstance 0 "alice" (Some "10.0.0.1") 1 5 5;
         LoginAttempt.mkInstance 1 "alice" (Some "10.0.0.1") 5 3 10;
         LoginAttempt.mkInstance 2 "alice" (Some "255.255.255.255") 1 6 6 ]
       3).
Proof. reflexivity. Qed.

Example attempt_db_unique_clash :
  attempt_db "alice" alice 700000000 stale_clash =
    (Raise IntegrityError, stale_clash).
Proof. reflexivity. Qed.

(** C10 as the claim states it fails: with no address resolved, no record
    is created, with a null address or any other; the call raises and the
    table holds what it held, the row under the sentinel untouched. *)
Lemma unresolved_attempt_creates_no_record :
  attempt_db "alice" (anonymous_from None) 10 sentinel_only =
    (Raise IntegrityError, sentinel_only) /\
  ~ (exists a,
       In a (LoginAttempt.rows
               (snd (attempt_db "alice" (anonymous_from None) 10 sentinel_only))) /\
       LoginAttempt.request_ip a = None).
Proof.
  split; [reflexivity |].
  intros (a & Ha & Hnull). cbn in Ha. destruct Ha as [<- | []].
  discriminate Hnull.
Qed.

Lemma unresolved_address_is_not_replaced_witness :
  constraints_hold sentinel_only = true /\
  LoginAttempt.existing_attempts "alice" None 10 sentinel_only = [] /\
  LoginAttempt.attempt_body "alice" (anonymous_from None) 10 sentinel_only =
    LoginAttempt.objects_create "alice" None 10 sentinel_only /\
  attempt_db "alice" (anonymous_from None) 10 sentinel_only =
    (Raise IntegrityError, sentinel_only).
Proof.
  split; [reflexivity |].
  apply (unresolved_address_is_not_replaced "alice" (anonymous_from None) 10
           sentinel_only eq_refl eq_refl).
Defined.

Lemma persisted_entry_cannot_be_saved_witness :
  AuditEntry.wf AuditEntry.empty /\
  exists e t',
    AuditEntry.objects_create "login" PyNone "10.0.0.1" "{}" 0 AuditEntry.empty =
      (Ok e, t') /\
    AuditEntry.save
      (AuditEntry.mkInstance
         (AuditEntry.mkRow (AuditEntry.uuid (AuditEntry.fields e)) (Some 7) "logout"
            (Some 0%Z) "" "[1]" "10.0.0.9" (Some 0%Z))
         PyNone false)
      false 1 t' =
      (Raise (ValidationError "you may not edit an existing auditentry"), t').
Proof.
  split; [constructor |].
  destruct (persisted_entry_cannot_be_saved AuditEntry.empty "login" PyNone None
              "10.0.0.1" "{}" 0 (Forall_nil _) eq_refl)
    as (e & t' & Hc & _ & _ & Hsave).
  exists e, t'. split; [exact Hc |]. apply Hsave. reflexivity.
Defined.

(** C8 as the claim states it fails: the resolver gives the long form of an
    IPv6 address, the entry returned holds it, and the row the data base
    holds carries the compressed form, another text. *)
Lemma create_rewrites_long_ipv6 :
  exists e t',
    @AuditEntry.create json_on_empty "login"
       (anonymous_from (Some "2001:db8:0:0:0:0:0:1")) [] 0 AuditEntry.empty =
      (Ok e, t') /\
    AuditEntry.request_ip (AuditEntry.fields e) = "2001:db8:0:0:0:0:0:1" /\
    @stored ipv6_on_examples t' =
      [AuditEntry.mkRow 0 None "login" (Some 0%Z) "" "{}" "2001:db8::1" (Some 0%Z)] /\
    ~ (forall r, In r (@stored ipv6_on_examples t') ->
         AuditEntry.request_ip r = "2001:db8:0:0:0:0:0:1").
Proof.
  exists (AuditEntry.mkInstance
            (AuditEntry.mkRow 0 None "login" (Some 0%Z) "" "{}"
               "2001:db8:0:0:0:0:0:1" (Some 0%Z))
            PyNone false),
         (AuditEntry.mkTable
            [AuditEntry.mkRow 0 None "login" (Some 0%Z) "" "{}"
               "2001:db8:0:0:0:0:0:1" (Some 0%Z)] 1).
  split; [reflexivity |]. split; [reflexivity |].
  split; [reflexivity |].
  intros H. specialize (H _ (or_introl eq_refl)). discriminate H.
Qed.

Lemma create_source_address_witness :
  (exists e t',
     @AuditEntry.create json_on_empty "login_failed" (anonymous_from None) [] 0
        AuditEntry.empty = (Ok e, t') /\
     @stored ipv6_on_examples t' = [@written ipv6_on_examples (AuditEntry.fields e)] /\
     AuditEntry.request_ip (@written ipv6_on_examples (AuditEntry.fields e)) =
       "255.255.255.255") /\
  (exists e t',
     @AuditEntry.create json_on_empty "login_failed" alice [] 0
        AuditEntry.empty = (Ok e, t') /\
     AuditEntry.request_ip (AuditEntry.fields e) = "10.0.0.1" /\
     AuditEntry.request_ip (@written ipv6_on_examples (AuditEntry.fields e)) =
       "10.0.0.1").
Proof.
  split.
  - destruct (@create_source_address json_on_empty ipv6_on_examples AuditEntry.empty
                "login_failed" (anonymous_from None) [] 0 "{}" None
                (Forall_nil _) eq_refl eq_refl)
      as (e & t' & Hc & Hs & Hnone & _).
    exists e, t'. split; [exact Hc |]. split; [exact Hs |].
    exact (proj2 (Hnone eq_refl)).
  - destruct (@create_source_address json_on_empty ipv6_on_examples AuditEntry.empty
                "login_failed" alice [] 0 "{}" None
                (Forall_nil _) eq_refl eq_refl)
      as (e & t' & Hc & _ & _ & Hsome).
    exists e, t'. split; [exact Hc |].
    destruct (Hsome "10.0.0.1" eq_refl ltac:(discriminate)) as (H1 & _ & H3).
    split; [exact H1 | exact (H3 eq_refl)].
Defined.

Lemma attempt_counts_once_witness :
  match attempt_db "alice" alice 10 overlapping with
  | (Ok _, t') => total_attempts t' = (total_attempts overlapping + 1)%Z
  | (Raise _, t') => t' = overlapping
  end.
Proof.
  apply (attempt_counts_once "alice" alice 10 overlapping wf_overlapping).
Defined.

Lemma attempt_short_key_verbatim_witness :
  exists a row,
    LoginAttempt.attempt_body "alice" alice 10 overlapping =
      (Ok a, snd (attempt_db "alice" alice 10 overlapping)) /\
    In row (LoginAttempt.rows (snd (attempt_db "alice" alice 10 overlapping))) /\
    LoginAttempt.id row = LoginAttempt.id a /\
    LoginAttempt.target_uid row = "alice" /\
    LoginAttempt.last_updated row = 10%Z.
Proof.
  apply (attempt_short_key_verbatim "alice" alice 10 overlapping
           ltac:(cbn; lia) None
           (snd (attempt_db "alice" alice 10 overlapping)) eq_refl).
Defined.

Lemma attempt_returns_none_witness :
  exists a t',
    attempt_db "alice" alice 10 overlapping = (Ok None, t') /\
    LoginAttempt.attempt_body "alice" alice 10 overlapping = (Ok a, t') /\
    exists row,
      In row (LoginAttempt.rows t') /\
      LoginAttempt.id row = LoginAttempt.id a /\
      LoginAttempt.attempts row = LoginAttempt.attempts a.
Proof.
  destruct (proj2 (proj2 (attempt_returns_none "alice" alice 10 overlapping)))
    as [Hraise | Hok].
  - exfalso. rewrite attempt_db_on_overlapping in Hraise. discriminate Hraise.
  - exact Hok.
Defined.
